(** * Evaluation measures of the sound-event-detection transformer

    A shallow embedding of [evaluation_measures.py]: the confusion counts
    and F-measure of the audio-tagging evaluation, the per-file event lists
    handed to the event/segment based metrics, the weak-label formatting of
    a table, the PSDS wrapper and the report assembler.

    Conventions.
    - Python exceptions are the [Raise] side of [result]; a function that
      can raise returns [result A].
    - numpy [float64] is Rocq's primitive binary64 [float]; [int64] is [Z]
      (the counts handled here are bounded by a number of table rows).
    - A pandas table is a [DataFrame]: column labels and rows of cells. *)

From Stdlib Require Import Floats Ascii.
From stdpp Require Import base list strings gmap.

Local Open Scope Z_scope.

(** ** Exceptions and the error monad *)

Inductive exn : Type :=
  | KeyError (key : string)
  | AttributeError (name : string)
  | IndexError
  | TypeError
  | ValueError
  | OSError (msg : string)
  | PSDSEvalError (msg : string).

Inductive result (A : Type) : Type :=
  | Ok (a : A)
  | Raise (e : exn).
Arguments Ok {A} a.
Arguments Raise {A} e.

#[global] Instance result_ret : MRet result := λ A a, Ok a.
#[global] Instance result_bind : MBind result := λ A B f m,
  match m with
  | Ok a => f a
  | Raise e => Raise e
  end.
#[global] Instance result_fmap : FMap result := λ A B f m,
  match m with
  | Ok a => Ok (f a)
  | Raise e => Raise e
  end.

Fixpoint mapM_result {A B} (f : A → result B) (l : list A) : result (list B) :=
  match l with
  | [] => Ok []
  | x :: l' => y ← f x; ys ← mapM_result f l'; Ok (y :: ys)
  end.

Fixpoint foldM_result {A B} (f : A → B → result A) (a : A) (l : list B) : result A :=
  match l with
  | [] => Ok a
  | x :: l' => a' ← f a x; foldM_result f a' l'
  end.

(** ** numpy: the array operations the module uses *)

Module Np.

(** int64 -> float64 conversion: round to nearest, ties to even. *)
Definition float_of_Z (z : Z) : float :=
  SF2Prim (binary_normalize prec emax z 0 false).

(** [a / b] on integer operands ([np.true_divide]): both operands are
    converted to float64 and divided; a zero divisor gives nan or an
    infinity (with a warning), never an exception. *)
Definition true_divide (a b : Z) : float :=
  PrimFloat.div (float_of_Z a) (float_of_Z b).

(** A 2-D array of shape [(length arr_rows, n_cols)]. *)
Record ndarray2 (A : Type) : Type := mk_ndarray2 {
  n_cols : nat;
  arr_rows : list (list A)
}.
Arguments mk_ndarray2 {A} n_cols arr_rows.
Arguments n_cols {A} _.
Arguments arr_rows {A} _.

Definition n_rows {A} (a : ndarray2 A) : nat := length (arr_rows a).

(** every row has [n_cols] entries *)
Definition wf {A} (a : ndarray2 A) : Prop :=
  Forall (λ r, length r = n_cols a) (arr_rows a).

Definition same_shape {A B} (a : ndarray2 A) (b : ndarray2 B) : Prop :=
  n_rows a = n_rows b ∧ n_cols a = n_cols b.

(** a multi-hot array: every entry is 0 or 1 *)
Definition multi_hot (a : ndarray2 Z) : Prop :=
  Forall (Forall (λ x, x = 0 ∨ x = 1)) (arr_rows a).

(** Broadcasting of one axis length against another. *)
Definition broadcast_dim (d1 d2 : nat) : result nat :=
  if decide (d1 = d2) then Ok d1
  else if decide (d1 = 1%nat) then Ok d2
  else if decide (d2 = 1%nat) then Ok d1
  else Raise ValueError.

Definition stretch {A} (n : nat) (l : list A) : list A :=
  match l with
  | [x] => replicate n x
  | _ => l
  end.

Definition broadcast_to {A} (r c : nat) (a : ndarray2 A) : list (list A) :=
  stretch r (stretch c <$> arr_rows a).

(** An elementwise binary operation, with broadcasting. *)
Definition elementwise {A B C} (op : A → B → C)
    (a : ndarray2 A) (b : ndarray2 B) : result (ndarray2 C) :=
  r ← broadcast_dim (n_rows a) (n_rows b);
  c ← broadcast_dim (n_cols a) (n_cols b);
  Ok (mk_ndarray2 c
        (zip_with (zip_with op) (broadcast_to r c a) (broadcast_to r c b))).

Definition add := elementwise Z.add.
Definition sub := elementwise Z.sub.

(** [a == k] against a scalar *)
Definition eq_scalar (a : ndarray2 Z) (k : Z) : ndarray2 bool :=
  mk_ndarray2 (n_cols a)
    ((λ row : list Z, (λ x, bool_decide (x = k)) <$> row) <$> arr_rows a).

(** [mask.sum(axis=0)]: one count per column, rows added top to bottom. *)
Definition sum_axis0 (m : ndarray2 bool) : list Z :=
  fold_left (λ acc (row : list bool), zip_with Z.add acc (Z.b2z <$> row))
            (arr_rows m) (replicate (n_cols m) 0).

(** 1-D integer vectors: elementwise operations, with broadcasting. *)
Definition velementwise {A B C} (op : A → B → C)
    (u : list A) (v : list B) : result (list C) :=
  n ← broadcast_dim (length u) (length v);
  Ok (zip_with op (stretch n u) (stretch n v)).
Definition vadd := velementwise Z.add.
Definition vtrue_divide := velementwise true_divide.
Definition vscale (k : Z) (v : list Z) : list Z := Z.mul k <$> v.
Definition vne_scalar (v : list Z) (k : Z) : list bool :=
  (λ x, bool_decide (x ≠ k)) <$> v.

(** [np.zeros(n)] *)
Definition zeros (n : nat) : list float := replicate n 0%float.

(** [a[mask]]: the entries selected by a boolean mask, in order; the
    mask must be as long as the array. *)
Fixpoint select_go {A} (a : list A) (mask : list bool) : list A :=
  match a, mask with
  | x :: a', b :: mask' =>
      if b then x :: select_go a' mask' else select_go a' mask'
  | _, _ => []
  end.
Definition select {A} (a : list A) (mask : list bool) : result (list A) :=
  if decide (length a = length mask) then Ok (select_go a mask)
  else Raise IndexError.

(** [a[mask] = vals]: the selected positions are overwritten by the
    values, taken in order; there must be one value per selected
    position. *)
Fixpoint assign_go {A} (a : list A) (mask : list bool) (vals : list A) : list A :=
  match a, mask with
  | x :: a', b :: mask' =>
      if b then
        match vals with
        | v :: vals' => v :: assign_go a' mask' vals'
        | [] => x :: assign_go a' mask' []
        end
      else x :: assign_go a' mask' vals
  | _, _ => a
  end.
Definition assign {A} (a : list A) (mask : list bool) (vals : list A)
    : result (list A) :=
  if decide (length a = length mask) then
    if decide (length vals = length (filter (λ b, b = true) mask))
    then Ok (assign_go a mask vals)
    else Raise ValueError
  else Raise IndexError.

(** [v.mean()] of a float vector: the sum, accumulated from the first
    entry on, divided by the number of entries; of no entries it is nan.
    (numpy adds long vectors in blocks: the order of the additions changes
    the rounding of the sum, not whether it is nan.) *)
Definition vsum (v : list float) : float :=
  fold_left PrimFloat.add v 0%float.
Definition vmean (v : list float) : float :=
  PrimFloat.div (vsum v) (float_of_Z (Z.of_nat (length v))).

End Np.

(** ** The confusion counts and the F-measure *)

(** [intermediate_at_measures(encoded_ref, encoded_est)] *)
Definition intermediate_at_measures (encoded_ref encoded_est : Np.ndarray2 Z)
    : result (list Z * list Z * list Z * list Z) :=
  s ← Np.add encoded_est encoded_ref;
  d_er ← Np.sub encoded_est encoded_ref;
  d_re ← Np.sub encoded_ref encoded_est;
  let tp := Np.sum_axis0 (Np.eq_scalar s 2) in
  let fp := Np.sum_axis0 (Np.eq_scalar d_er 1) in
  let fn := Np.sum_axis0 (Np.eq_scalar d_re 1) in
  let tn := Np.sum_axis0 (Np.eq_scalar s 0) in
  Ok (tp, fp, fn, tn).

(** [macro_f_measure(tp, fp, fn)] *)
Definition macro_f_measure (tp fp fn : list Z) : result (list float) :=
  let macro_f_score := Np.zeros (length tp) in
  s ← Np.vadd (Np.vscale 2 tp) fp;
  denom ← Np.vadd s fn;
  let mask_f_score := Np.vne_scalar denom 0 in
  tp_sel ← Np.select tp mask_f_score;
  denom_sel ← Np.select denom mask_f_score;
  vals ← Np.vtrue_divide (Np.vscale 2 tp_sel) denom_sel;
  Np.assign macro_f_score mask_f_score vals.

(** ** pandas: cells, tables and the table operations the module uses *)

Module Pd.

(** A table cell: a string, a float (a missing value is the float nan),
    or a multi-hot vector (a numpy array held in an object column). *)
Inductive cell : Type :=
  | CStr (s : string)
  | CNum (x : float)
  | CArr (v : list Z).

Definition NaN : cell := CNum PrimFloat.nan.

(** [pd.isna(c)] used as a condition: on an array the answer is an array,
    whose truth value is an error unless it has at most one entry. *)
Definition isna (c : cell) : result bool :=
  match c with
  | CStr _ => Ok false
  | CNum x => Ok (PrimFloat.is_nan x)
  | CArr v => if decide (length v ≤ 1)%nat then Ok false else Raise ValueError
  end.

(** the elementwise test of [dropna] *)
Definition is_missing (c : cell) : bool :=
  match c with
  | CNum x => PrimFloat.is_nan x
  | _ => false
  end.

(** [c == d], elementwise comparison of a column with a scalar: nan is
    not equal to itself. *)
Definition cell_eqb (c d : cell) : bool :=
  match c, d with
  | CStr s, CStr t => bool_decide (s = t)
  | CNum x, CNum y => PrimFloat.eqb x y
  | _, _ => false
  end.

(** equality of keys in [unique], [groupby] and [merge]: as [==], except
    that missing values count as one key. *)
Definition key_eqb (c d : cell) : bool :=
  match c, d with
  | CStr s, CStr t => bool_decide (s = t)
  | CNum x, CNum y =>
      PrimFloat.eqb x y || (PrimFloat.is_nan x && PrimFloat.is_nan y)
  | CArr u, CArr v => bool_decide (u = v)
  | _, _ => false
  end.

Record DataFrame : Type := mk_DataFrame {
  columns : list string;
  rows : list (list cell)
}.

(** column labels are distinct and every row has a cell per column *)
Definition wf (df : DataFrame) : Prop :=
  NoDup (columns df) ∧ Forall (λ r, length r = length (columns df)) (rows df).

Fixpoint col_index (name : string) (cols : list string) : option nat :=
  match cols with
  | [] => None
  | c :: cols' =>
      if decide (c = name) then Some 0%nat else S <$> col_index name cols'
  end.

Definition cell_at (i : nat) (r : list cell) : cell := default NaN (r !! i).

(** [df[name]] *)
Definition getitem (df : DataFrame) (name : string) : result (list cell) :=
  match col_index name (columns df) with
  | Some i => Ok (cell_at i <$> rows df)
  | None => Raise (KeyError name)
  end.

(** [df.name] *)
Definition getattr (df : DataFrame) (name : string) : result (list cell) :=
  match col_index name (columns df) with
  | Some i => Ok (cell_at i <$> rows df)
  | None => Raise (AttributeError name)
  end.

(** [df.name = values] for an existing column *)
Definition setattr (df : DataFrame) (name : string) (values : list cell)
    : DataFrame :=
  match col_index name (columns df) with
  | Some i =>
      mk_DataFrame (columns df) (zip_with (λ r v, <[i:=v]> r) (rows df) values)
  | None => df
  end.

(** [df[mask]] *)
Fixpoint mask_rows {A} (l : list A) (mask : list bool) : list A :=
  match l, mask with
  | x :: l', b :: mask' =>
      if b then x :: mask_rows l' mask' else mask_rows l' mask'
  | _, _ => []
  end.
Definition filter_rows (df : DataFrame) (mask : list bool) : DataFrame :=
  mk_DataFrame (columns df) (mask_rows (rows df) mask).

(** [len(df)] and [df.empty] *)
Definition len (df : DataFrame) : nat := length (rows df).
Definition empty (df : DataFrame) : bool :=
  bool_decide (rows df = [] ∨ columns df = []).

(** [series.iloc[0]] *)
Definition iloc0 (l : list cell) : result cell :=
  match l with
  | c :: _ => Ok c
  | [] => Raise IndexError
  end.

(** [df.to_dict('records')]: one dictionary per row, keyed by the column
    labels (the last of two equal labels wins). *)
Definition to_record (cols : list string) (r : list cell) : gmap string cell :=
  list_to_map (reverse (zip cols r)).
Definition to_dict_records (df : DataFrame) : list (gmap string cell) :=
  to_record (columns df) <$> rows df.

(** [series.unique()] ([drop_duplicates] alike): the distinct values, in
    order of first appearance. *)
Definition unique (l : list cell) : list cell :=
  fold_left (λ seen c, if existsb (key_eqb c) seen then seen else seen ++ [c])
            l [].
Definition drop_duplicates := unique.

(** [series.dropna()] *)
Definition dropna (l : list cell) : list cell :=
  filter (λ c, is_missing c = false) l.

(** the row without its [i]-th cell *)
Definition drop_nth {A} (i : nat) (l : list A) : list A :=
  take i l ++ drop (S i) l.

(** [left.merge(right, how='outer', on=key, suffixes=[sl, sr])].
    Columns: the left columns, then the right columns but the key; a
    label other than the key that occurs on both sides gets its side's
    suffix. Rows: each left row paired with every right row of the same
    key, or padded with nan when there is none; then the right rows whose
    key no left row has, padded with nan on the left. (pandas orders the
    joined rows by key; the order of rows is not observable through the
    column sums this module takes of the result.) *)
Definition merge_columns (lcols rcols : list string) (li ri : nat)
    (sl sr : string) : list string :=
  let lother := drop_nth li lcols in
  let rother := drop_nth ri rcols in
  imap (λ i c, if decide (i = li) then c
               else if decide (c ∈ rother) then (c +:+ sl) else c) lcols
  ++ ((λ c, if decide (c ∈ lother) then (c +:+ sr) else c) <$> rother).

Definition merge_left_row (li ri : nat) (n_right : nat)
    (rrows : list (list cell)) (l : list cell) : list (list cell) :=
  match filter (λ r, key_eqb (cell_at li l) (cell_at ri r) = true) rrows with
  | [] => [l ++ replicate n_right NaN]
  | ms => (λ r, l ++ drop_nth ri r) <$> ms
  end.

Definition merge_right_only (li ri : nat) (n_left : nat)
    (lrows : list (list cell)) (r : list cell) : list (list cell) :=
  if existsb (λ l, key_eqb (cell_at li l) (cell_at ri r)) lrows then []
  else [<[li:=cell_at ri r]> (replicate n_left NaN) ++ drop_nth ri r].

Definition merge_outer (left right : DataFrame) (key : string)
    (sl sr : string) : result DataFrame :=
  match col_index key (columns left), col_index key (columns right) with
  | Some li, Some ri =>
      let n_left := length (columns left) in
      let n_right := pred (length (columns right)) in
      Ok (mk_DataFrame
            (merge_columns (columns left) (columns right) li ri sl sr)
            ((rows left ≫= merge_left_row li ri n_right (rows right))
             ++ (rows right ≫= merge_right_only li ri n_left (rows left))))
  | _, _ => Raise (KeyError key)
  end.

(** [np.array(series.tolist())] for a column of vectors: a 2-D array when
    the cells are vectors of one length. An empty column gives a 1-D
    array of no entries, whose column sums are a scalar without a shape
    entry to read ([IndexError] at [tp.shape[-1]]); cells that are not
    vectors of one length do not stack into a numeric 2-D array. *)
Definition as_vector (c : cell) : result (list Z) :=
  match c with
  | CArr v => Ok v
  | _ => Raise ValueError
  end.
Definition to_ndarray2 (l : list cell) : result (Np.ndarray2 Z) :=
  vs ← mapM_result as_vector l;
  match vs with
  | [] => Raise IndexError
  | v :: _ =>
      if decide (Forall (λ u, length u = length v) vs)
      then Ok (Np.mk_ndarray2 (length v) vs)
      else Raise ValueError
  end.

End Pd.
Export Pd(cell, CStr, CNum, CArr, DataFrame).

(** ** Collaborators outside this module *)

(** The many-hot label encoder ([utilities.FrameEncoder.ManyHotEncoder]):
    its label list and its weak encoding of a list of labels. *)
Record ManyHotEncoder : Type := mk_ManyHotEncoder {
  labels : list cell;
  encode_weak : list cell → result cell
}.

(** An event of a per-file event list: a dictionary from field names to
    cells. *)
Abbreviation event_dict := (gmap string cell).

(** What [results_class_wise_average_metrics()['f_measure']] holds. *)
Record f_measure_scores : Type := mk_f_measure_scores {
  f_measure : float;
  precision : float;
  recall : float
}.

(** The interface shared by [sed_eval]'s [EventBasedMetrics] and
    [SegmentBasedMetrics]: an accumulator fed one file at a time. *)
Class SedMetrics (M : Type) : Type := {
  evaluate : M → list event_dict → list event_dict → result M;
  results_class_wise_average_metrics : M → result f_measure_scores
}.

(** A Python value returned by the report assembler. *)
Inductive pyval : Type :=
  | PNone
  | PInt (z : Z)
  | PFloat (x : float)
  | PSeries (xs : list float).

(** The table returned by [audio_tagging_results]: an index of labels and
    the columns f, p, r. *)
Record ResultsTable : Type := mk_ResultsTable {
  index : list cell;
  fpr_values : list (float * float * float)
}.

(** the defaults [t_collar=0.200] and [percentage_of_length=0.2]: the
    binary64 value nearest to 0.2 *)
Definition t_collar_default : float := 0x1.999999999999ap-3%float.
Definition percentage_of_length_default : float := 0x1.999999999999ap-3%float.

(** ** Per-file event lists and the event/segment based evaluation *)

(** [get_event_list_current_file(df, fname)] *)
Definition get_event_list_current_file (df : DataFrame) (fname : cell)
    : result (list event_dict) :=
  filenames ← Pd.getitem df "filename";
  let event_file := Pd.filter_rows df ((λ c, Pd.cell_eqb c fname) <$> filenames) in
  if decide (Pd.len event_file = 1%nat) then
    event_labels ← Pd.getitem event_file "event_label";
    first ← Pd.iloc0 event_labels;
    missing ← Pd.isna first;
    if (missing : bool) then Ok [ {[ "filename" := fname ]} ]
    else Ok (Pd.to_dict_records event_file)
  else Ok (Pd.to_dict_records event_file).

Section Evaluation.

(** [list(set(l))]: the distinct labels in the order Python's set yields
    them. *)
Variable list_set : list cell → list cell.

(** the constructors of the two [sed_eval] accumulators *)
Context {EM SM : Type} `{!SedMetrics EM} `{!SedMetrics SM}.
Variable EventBasedMetrics :
  list cell → float → float → string → EM.
Variable SegmentBasedMetrics : list cell → float → SM.

(** the constructor of the label encoder *)
Variable new_ManyHotEncoder : list cell → ManyHotEncoder.

(** the classes of both tables, as both evaluation functions and
    [audio_tagging_results] collect them *)
Definition collect_classes (reference estimated : DataFrame)
    : result (list cell) :=
  ref_labels ← Pd.getattr reference "event_label";
  let classes := Pd.unique (Pd.dropna ref_labels) in
  est_labels ← Pd.getattr estimated "event_label";
  let classes := classes ++ Pd.unique (Pd.dropna est_labels) in
  Ok (list_set classes).

(** the loop [for fname in evaluated_files: ... metric.evaluate(...)] *)
Definition evaluate_files {M} `{!SedMetrics M} (reference estimated : DataFrame)
    (metric : M) (evaluated_files : list cell) : result M :=
  foldM_result
    (λ metric fname,
       reference_event_list_for_current_file ←
         get_event_list_current_file reference fname;
       estimated_event_list_for_current_file ←
         get_event_list_current_file estimated fname;
       evaluate metric reference_event_list_for_current_file
                estimated_event_list_for_current_file)
    metric evaluated_files.

(** [event_based_evaluation_df(reference, estimated, t_collar,
    percentage_of_length)] *)
Definition event_based_evaluation_df (reference estimated : DataFrame)
    (t_collar percentage_of_length : float) : result EM :=
  filenames ← Pd.getitem reference "filename";
  let evaluated_files := Pd.unique filenames in
  classes ← collect_classes reference estimated;
  let event_based_metric :=
    EventBasedMetrics classes t_collar percentage_of_length "zero_score" in
  evaluate_files reference estimated event_based_metric evaluated_files.

(** [segment_based_evaluation_df(reference, estimated, time_resolution)] *)
Definition segment_based_evaluation_df (reference estimated : DataFrame)
    (time_resolution : float) : result SM :=
  filenames ← Pd.getitem reference "filename";
  let evaluated_files := Pd.unique filenames in
  classes ← collect_classes reference estimated;
  let segment_based_metric := SegmentBasedMetrics classes time_resolution in
  evaluate_files reference estimated segment_based_metric evaluated_files.

(** [compute_sed_eval_metrics(predictions, groundtruth, report, cal_seg)];
    the printing of the metric objects returns nothing and is left out. *)
Definition compute_sed_eval_metrics (predictions groundtruth : DataFrame)
    (report cal_seg : bool) : result (EM * option SM) :=
  metric_event ←
    event_based_evaluation_df groundtruth predictions t_collar_default
      percentage_of_length_default;
  if cal_seg then
    metric_segment ←
      segment_based_evaluation_df groundtruth predictions 1%float;
    Ok (metric_event, Some metric_segment)
  else Ok (metric_event, None).

(** ** Weak-label formatting *)

(** [join_labels(x)] of [format_df], on the sub-table [x] of one file *)
Definition join_labels (mhe : ManyHotEncoder) (x : DataFrame)
    : result (list cell) :=
  filenames ← Pd.getitem x "filename";
  filename ← Pd.iloc0 filenames;
  event_labels ← Pd.getitem x "event_label";
  event_label ← encode_weak mhe (Pd.dropna (Pd.drop_duplicates event_labels));
  Ok [filename; event_label].

(** [df.groupby("filename", as_index=False).apply(join_labels)]: one row
    per file, rows of a missing filename left out; a table without rows
    stays as it is. (Groups are taken in order of first appearance;
    pandas orders them by key, which no consumer here observes.) *)
Definition groupby_filename_apply (df : DataFrame)
    (f : DataFrame → result (list cell)) : result DataFrame :=
  keys ← Pd.getitem df "filename";
  match Pd.unique (Pd.dropna keys) with
  | [] => Ok (Pd.mk_DataFrame (Pd.columns df) [])
  | groups =>
      joined ← mapM_result
        (λ k, f (Pd.filter_rows df ((λ c, Pd.key_eqb c k) <$> keys))) groups;
      Ok (Pd.mk_DataFrame ["filename"; "event_label"] joined)
  end.

(** [format_df(df, mhe)] *)
Definition format_df (df : DataFrame) (mhe : ManyHotEncoder)
    : result DataFrame :=
  if decide ("onset" ∈ Pd.columns df ∨ "offset" ∈ Pd.columns df)
  then groupby_filename_apply df (join_labels mhe)
  else Ok df.

(** ** Audio tagging *)

(** [series.str.split(',', expand=True).unstack().dropna().unique()]:
    the comma-separated labels of a column of strings, first labels
    first; a cell that is not a string has none. The [.str] accessor
    refuses a column of numbers (a float column). *)
Fixpoint split_on (sep : Ascii.ascii) (s : string) : list string :=
  match s with
  | EmptyString => [EmptyString]
  | String c s' =>
      if decide (c = sep) then EmptyString :: split_on sep s'
      else match split_on sep s' with
           | t :: ts => String c t :: ts
           | [] => [String c EmptyString]
           end
  end.

Definition str_split (c : cell) : list string :=
  match c with
  | CStr s => split_on ","%char s
  | _ => []
  end.

Definition is_number (c : cell) : bool :=
  match c with
  | CNum _ => true
  | _ => false
  end.

Definition split_labels (col : list cell) : result (list cell) :=
  if negb (bool_decide (col = [])) && forallb is_number col
  then Raise (AttributeError "str")
  else
    let toks := str_split <$> col in
    let width := foldr (λ t, Nat.max (length t)) 0%nat toks in
    Ok (Pd.unique
          (j ← seq 0 width; CStr <$> omap (λ t : list string, t !! j) toks)).

(** [na_values(val)] *)
Definition na_values (classes : list cell) (val : cell) : result cell :=
  match val with
  | CArr _ => Ok val
  | _ =>
      missing ← Pd.isna val;
      if (missing : bool) then Ok (CArr (replicate (length classes) 0))
      else Ok val
  end.

(** the body of [if not estimated.empty:] up to the confusion counts:
    both label columns of the joined table pass through [na_values] and
    are stacked into the two arrays of [intermediate_at_measures] *)
Definition matching_arrays (classes : list cell) (matching : DataFrame)
    : result (Np.ndarray2 Z * Np.ndarray2 Z) :=
  pred ← Pd.getattr matching "event_label_pred";
  pred ← mapM_result (na_values classes) pred;
  let matching := Pd.setattr matching "event_label_pred" pred in
  ref ← Pd.getattr matching "event_label_ref";
  ref ← mapM_result (na_values classes) ref;
  let matching := Pd.setattr matching "event_label_ref" ref in
  ref ← Pd.getattr matching "event_label_ref";
  encoded_ref ← Pd.to_ndarray2 ref;
  pred ← Pd.getattr matching "event_label_pred";
  encoded_est ← Pd.to_ndarray2 pred;
  Ok (encoded_ref, encoded_est).

Definition matching_counts (classes : list cell) (matching : DataFrame)
    : result (list Z * list Z * list Z * list Z) :=
  '(encoded_ref, encoded_est) ← matching_arrays classes matching;
  intermediate_at_measures encoded_ref encoded_est.

(** the three score vectors of the table: from the counts when there are
    estimates, zeros otherwise *)
Definition tagging_scores (classes : list cell) (estimated matching : DataFrame)
    : result (list float * list float * list float) :=
  if negb (Pd.empty estimated) then
    '(tp, fp, fn, tn) ← matching_counts classes matching;
    macro_f ← macro_f_measure tp fp fn;
    tp_fp ← Np.vadd tp fp;
    macro_p ← Np.vtrue_divide tp tp_fp;
    tp_fn ← Np.vadd tp fn;
    macro_r ← Np.vtrue_divide tp tp_fn;
    Ok (macro_f, macro_p, macro_r)
  else
    Ok (Np.zeros (length classes), Np.zeros (length classes),
        Np.zeros (length classes)).

(** [np.asarray([macro_f, macro_p, macro_r]).transpose(1, 0)]: one row
    (f, p, r) per class; the three vectors must have one length. *)
Definition stack_scores (macro_f macro_p macro_r : list float)
    : result (list (float * float * float)) :=
  if decide (length macro_f = length macro_p ∧ length macro_p = length macro_r)
  then Ok (zip (zip macro_f macro_p) macro_r)
  else Raise ValueError.

(** [data.mean(0)]: the mean of each column *)
Definition mean_axis0 (data : list (float * float * float))
    : float * float * float :=
  (Np.vmean ((λ x, x.1.1) <$> data),
   Np.vmean ((λ x, x.1.2) <$> data),
   Np.vmean ((λ x, x.2) <$> data)).

(** the table indexed by the encoder's labels, with the trailing row
    [avg] appended *)
Definition results_table (mhe : ManyHotEncoder)
    (data : list (float * float * float)) : result ResultsTable :=
  if decide (length (labels mhe) = length data) then
    Ok (mk_ResultsTable (labels mhe ++ [CStr "avg"]) (data ++ [mean_axis0 data]))
  else Raise ValueError.

(** [audio_tagging_results(reference, estimated)] *)
Definition audio_tagging_results (reference estimated : DataFrame)
    : result ResultsTable :=
  '(classes, mhe, reference, estimated) ←
    (if decide ("event_label" ∈ Pd.columns reference) then
       classes ← collect_classes reference estimated;
       let mhe := new_ManyHotEncoder classes in
       reference ← format_df reference mhe;
       estimated ← format_df estimated mhe;
       Ok (classes, mhe, reference, estimated)
     else
       ref_labels ← Pd.getattr reference "event_labels";
       ref_classes ← split_labels ref_labels;
       est_labels ← Pd.getattr estimated "event_labels";
       est_classes ← split_labels est_labels;
       let classes := list_set (ref_classes ++ est_classes) in
       Ok (classes, new_ManyHotEncoder classes, reference, estimated));
  matching ← Pd.merge_outer reference estimated "filename" "_ref" "_pred";
  '(macro_f, macro_p, macro_r) ← tagging_scores classes estimated matching;
  data ← stack_scores macro_f macro_p macro_r;
  results_table mhe data.

(** ** The report assembler *)

(** [results_serie.loc['avg', 'f']]: the f of the row labelled [avg], a
    series of them when a class is itself called [avg] *)
Definition loc_avg_f (t : ResultsTable) : result pyval :=
  match (λ x, x.2.1.1) <$>
          filter (λ x, Pd.cell_eqb x.1 (CStr "avg") = true)
                 (zip (index t) (fpr_values t)) with
  | [] => Raise (KeyError "avg")
  | [f] => Ok (PFloat f)
  | fs => Ok (PSeries fs)
  end.

(** [v * 100], as evaluated to print the summary row *)
Definition times_100 (v : pyval) : result pyval :=
  match v with
  | PNone => Raise TypeError
  | PInt z => Ok (PInt (z * 100))
  | PFloat x => Ok (PFloat (x * 100)%float)
  | PSeries xs => Ok (PSeries ((λ x, x * 100)%float <$> xs))
  end.

(** [compute_metrics(predictions, gtruth_df, meta_df, cal_seg, cal_clip)];
    of the printed summary only what can raise is kept. *)
Definition compute_metrics (predictions gtruth_df : DataFrame)
    (meta_df : option DataFrame) (cal_seg cal_clip : bool)
    : result (pyval * pyval * pyval) :=
  if Pd.empty predictions then Ok (PInt 0, PInt 0, PInt 0)
  else
    '(events_metric, segments_metric) ←
      compute_sed_eval_metrics predictions gtruth_df true cal_seg;
    events_macro ← results_class_wise_average_metrics events_metric;
    let events_macro_f1 := f_measure events_macro in
    let events_macro_p := precision events_macro in
    let events_macro_r := recall events_macro in
    clip_macro_f1 ←
      (if cal_clip then
         clip_metric ← audio_tagging_results gtruth_df predictions;
         loc_avg_f clip_metric
       else Ok PNone);
    _ ← match segments_metric with
        | Some segments_metric =>
            seg_macro ← results_class_wise_average_metrics segments_metric;
            times_100 clip_macro_f1
        | None => Ok PNone
        end;
    Ok (PFloat events_macro_f1, PFloat events_macro_p, clip_macro_f1).

End Evaluation.

(** ** The PSDS wrapper *)

(** What [psds_score] does to the outside world, in order. *)
Inductive effect : Type :=
  | PsdsQuery (alpha_ct alpha_st max_efpr : Z)
  | LogInfo (msg : string) (value : float)
  | LogError (msg : string)
  | LogErrorExn (e : exn)
  | MakeDirs (path : string)
  | PlotPsdRoc (value : float) (filename : string).

(** A computation that logs its effects and returns or raises. *)
Definition io (A : Type) : Type := list effect → list effect * result A.

#[global] Instance io_ret : MRet io := λ A a t, (t, Ok a).
#[global] Instance io_bind : MBind io := λ A B f m t,
  match m t with
  | (t', Ok a) => f a t'
  | (t', Raise e) => (t', Raise e)
  end.

(** perform one effect, with the outcome the outside world gives it *)
Definition perform {A} (e : effect) (outcome : result A) : io A :=
  λ t, (t ++ [e], outcome).

(** [try: body except PSDSEvalError as e: handler(e)] *)
Definition try_except_PSDSEvalError {A} (body : io A) (handler : exn → io A)
    : io A :=
  λ t,
    match body t with
    | (t', Raise (PSDSEvalError msg)) => handler (PSDSEvalError msg) t'
    | r => r
    end.

(** The score object returned by [PSDSEval.psds]. *)
Record PSDS : Type := mk_PSDS { value : float }.

(** The outside world of [psds_score]: the evaluator's [psds] method, the
    plotting function of [psds_eval], and the [os]/[os.path] functions. *)
Record PsdsWorld : Type := mk_PsdsWorld {
  psds_method : Z → Z → Z → result PSDS;
  plot_psd_roc_fn : PSDS → string → result unit;
  os_makedirs : string → result unit;
  osp_dirname : string → string;
  osp_splitext : string → string * string
}.

Section Psds.

Variable w : PsdsWorld.

Definition psds_call (alpha_ct alpha_st max_efpr : Z) : io PSDS :=
  perform (PsdsQuery alpha_ct alpha_st max_efpr)
          (psds_method w alpha_ct alpha_st max_efpr).

Definition logger_info (msg : string) (v : float) : io unit :=
  perform (LogInfo msg v) (Ok tt).

Definition logger_error (msg : string) : io unit :=
  perform (LogError msg) (Ok tt).

Definition logger_error_exn (e : exn) : io unit :=
  perform (LogErrorExn e) (Ok tt).

Definition makedirs (path : string) : io unit :=
  perform (MakeDirs path) (os_makedirs w path).

Definition plot_psd_roc (score : PSDS) (filename : string) : io unit :=
  perform (PlotPsdRoc (value score) filename) (plot_psd_roc_fn w score filename).

(** [psds_score(psds, filename_roc_curves)]; an info entry holds the text
    before the score (without its leading newline) and the score that the
    format [:.5f] renders. *)
Definition psds_score (filename_roc_curves : option string) : io unit :=
  try_except_PSDSEvalError
    (psds_score ← psds_call 0 0 100;
     _ ← logger_info "PSD-Score (0, 0, 100): " (value psds_score);
     psds_ct_score ← psds_call 1 0 100;
     _ ← logger_info "PSD-Score (1, 0, 100): " (value psds_ct_score);
     psds_macro_score ← psds_call 0 1 100;
     _ ← logger_info "PSD-Score (0, 1, 100): " (value psds_macro_score);
     match filename_roc_curves with
     | Some filename =>
         _ ← (if decide (osp_dirname w filename ≠ "")
              then makedirs (osp_dirname w filename) else mret tt);
         let '(base, ext) := osp_splitext w filename in
         _ ← plot_psd_roc psds_score (base +:+ "_0_0_100" +:+ ext);
         _ ← plot_psd_roc psds_ct_score (base +:+ "_1_0_100" +:+ ext);
         plot_psd_roc psds_macro_score (base +:+ "_0_1_100" +:+ ext)
     | None => mret tt
     end)
    (λ e,
       _ ← logger_error "psds score did not work ....";
       logger_error_exn e).

(** the evaluator queries among the effects, in order *)
Definition queries (t : list effect) : list (Z * Z * Z) :=
  omap (λ e, match e with
             | PsdsQuery a b c => Some (a, b, c)
             | _ => None
             end) t.

End Psds.

(** ** Reading the counts off the arrays *)

(** The number of rows [i] at which the entries [ref[i][c]] and [est[i][c]]
    of class [c] satisfy [P]. *)
Definition count_rows (P : Z → Z → bool)
    (ref est : Np.ndarray2 Z) (c : nat) : Z :=
  Z.of_nat (length (filter (λ re : list Z * list Z, P (re.1 !!! c) (re.2 !!! c) = true)
                           (zip (Np.arr_rows ref) (Np.arr_rows est)))).

(** the example of the specification: one class, four instances *)
Definition ex_ref : Np.ndarray2 Z := Np.mk_ndarray2 1 [[1]; [0]; [1]; [1]].
Definition ex_est : Np.ndarray2 Z := Np.mk_ndarray2 1 [[1]; [1]; [0]; [1]].


(** ** What an accumulator is fed *)

(** An accumulator that only records what it is fed: the reference and the
    estimated event list of each [evaluate] call, in order. *)
Definition Recorder : Type := list (list event_dict * list event_dict).

#[global] Instance recorder_metrics : SedMetrics Recorder := {|
  evaluate m reference_event_list estimated_event_list :=
    Ok (m ++ [(reference_event_list, estimated_event_list)]);
  results_class_wise_average_metrics _ :=
    Ok (mk_f_measure_scores 0%float 0%float 0%float)
|}.

(** the three queries of [psds_score], in order *)
Definition psds_queries : list (Z * Z * Z) := [(0, 0, 100); (1, 0, 100); (0, 1, 100)].

(** ** Weak tables and the rows of their join *)









(** ** Concrete collaborators and tables for the examples *)

(** Modelled from the spec: the many-hot encoder of
    [utilities/FrameEncoder.py], which is not among the sources. The
    specification describes its weak encoding as a fixed-length vector over
    the label vocabulary with 1 at each present label's index. *)
Definition many_hot_encoder (classes : list cell) : ManyHotEncoder := {|
  labels := classes;
  encode_weak present :=
    Ok (CArr ((λ c, if existsb (Pd.key_eqb c) present then 1 else 0) <$> classes))
|}.

(** an order for [list(set(l))]: first appearance *)
Definition list_set_first (l : list cell) : list cell := Pd.unique l.

(** a table where the only row of a.wav has no label *)
Definition ex_single_missing : DataFrame :=
  Pd.mk_DataFrame ["filename"; "onset"; "offset"; "event_label"]
    [ [CStr "a.wav"; Pd.NaN; Pd.NaN; Pd.NaN];
      [CStr "b.wav"; CNum 1%float; CNum 2%float; CStr "dog"] ].

(** reference and estimated events; c.wav is in the estimated table only *)
Definition ex_reference_events : DataFrame :=
  Pd.mk_DataFrame ["filename"; "onset"; "offset"; "event_label"]
    [ [CStr "a.wav"; CNum 1%float; CNum 2%float; CStr "dog"] ].

Definition ex_estimated_row_c : list cell :=
  [CStr "c.wav"; CNum 0%float; CNum 1%float; CStr "cat"].

Definition ex_estimated_events : DataFrame :=
  Pd.mk_DataFrame ["filename"; "onset"; "offset"; "event_label"]
    [ [CStr "a.wav"; CNum 1%float; CNum 2%float; CStr "cat"];
      ex_estimated_row_c ].

(** an empty table of predictions *)
Definition ex_no_predictions : DataFrame :=
  Pd.mk_DataFrame ["event_label"; "onset"; "offset"; "score"; "filename"] [].

(** a weak table: no onset and no offset column *)
Definition ex_weak_table : DataFrame :=
  Pd.mk_DataFrame ["filename"; "event_labels"]
    [ [CStr "a.wav"; CStr "dog,cat"]; [CStr "b.wav"; CStr "dog"] ].

(** a world whose evaluator fails on the second query *)
Definition ex_world_failing : PsdsWorld := {|
  psds_method alpha_ct alpha_st max_efpr :=
    if decide (alpha_ct = 1) then Raise (PSDSEvalError "no operating point")
    else Ok (mk_PSDS 0.5%float);
  plot_psd_roc_fn _ _ := Ok tt;
  os_makedirs _ := Ok tt;
  osp_dirname _ := "";
  osp_splitext p := (p, "")
|}.

(** two classes, dog and cat; a.wav is tagged dog in the reference and cat
    in the estimate, b.wav is in the reference only *)
Definition ex_classes : list cell := [CStr "dog"; CStr "cat"].

(** ** Definitions for the further properties *)

(** ** Batches *)

(** [np.concatenate([a, b], axis=0)]: the rows of [b] under the rows of
    [a], for two arrays of one width *)
Definition vstack {A} (a b : Np.ndarray2 A) : Np.ndarray2 A :=
  Np.mk_ndarray2 (Np.n_cols a) (Np.arr_rows a ++ Np.arr_rows b).

(** the shapes of two arrays cannot be broadcast together *)
Definition incompatible (d1 d2 : nat) : Prop :=
  d1 ≠ d2 ∧ d1 ≠ 1%nat ∧ d2 ≠ 1%nat.

(** two batches of three instances over two classes *)
Definition ex_batch_ref : Np.ndarray2 Z := Np.mk_ndarray2 2 [[1; 0]; [0; 1]; [1; 1]].
Definition ex_batch_est : Np.ndarray2 Z := Np.mk_ndarray2 2 [[1; 1]; [0; 0]; [1; 1]].

(** a table of events without a label column *)
Definition ex_no_label_column : DataFrame :=
  Pd.mk_DataFrame ["filename"; "onset"; "offset"]
    [ [CStr "a.wav"; CNum 0%float; CNum 1%float];
      [CStr "b.wav"; CNum 0%float; CNum 1%float];
      [CStr "b.wav"; CNum 2%float; CNum 3%float] ].

(** a reference table without rows *)
Definition ex_empty_reference : DataFrame :=
  Pd.mk_DataFrame ["filename"; "onset"; "offset"; "event_label"] [].

(** a cell that is a string *)
Definition is_string (c : cell) : Prop :=
  match c with
  | CStr _ => True
  | _ => False
  end.

(** a table of four events in two files *)
Definition ex_strong_table : DataFrame :=
  Pd.mk_DataFrame ["filename"; "onset"; "offset"; "event_label"]
    [ [CStr "a.wav"; CNum 0%float; CNum 1%float; CStr "dog"];
      [CStr "b.wav"; CNum 0%float; CNum 1%float; CStr "cat"];
      [CStr "a.wav"; CNum 2%float; CNum 3%float; CStr "dog"];
      [CStr "a.wav"; CNum 4%float; CNum 5%float; CStr "cat"] ].

(** the columns of a weak table as the annotation files have it *)
Definition weak_file_columns : list string := ["filename"; "event_labels"].

(** weak predictions for two files *)
Definition ex_weak_predictions : DataFrame :=
  Pd.mk_DataFrame ["filename"; "event_labels"]
    [ [CStr "a.wav"; CStr "dog"]; [CStr "c.wav"; CStr "cat"] ].

(** the error entries among the effects *)
Definition is_error_entry (e : effect) : bool :=
  match e with
  | LogError _ | LogErrorExn _ => true
  | _ => false
  end.

(** a world where every collaborator succeeds; the score of a query is
    told by its first parameter *)
Definition ex_world_ok : PsdsWorld := {|
  psds_method alpha_ct alpha_st max_efpr :=
    Ok (mk_PSDS (if decide (alpha_ct = 1) then 0.25%float else 0.5%float));
  plot_psd_roc_fn _ _ := Ok tt;
  os_makedirs _ := Ok tt;
  osp_dirname _ := "out";
  osp_splitext _ := ("out/roc", ".png")
|}.

(** a world where the directory of the plots cannot be made *)
Definition ex_world_readonly : PsdsWorld := {|
  psds_method alpha_ct alpha_st max_efpr := Ok (mk_PSDS 0.5%float);
  plot_psd_roc_fn _ _ := Ok tt;
  os_makedirs _ := Raise (OSError "read-only file system");
  osp_dirname _ := "out";
  osp_splitext _ := ("out/roc", ".png")
|}.

(** ** Nested sequences *)

(** A Python value as [flatten] tells them apart: a string or a bytes
    object (iterable, but kept whole), any other iterable with its
    elements, and a value that is not iterable. The elements of an
    iterable are finitely many and the nesting is finite. *)
#[local] Unset Elimination Schemes.
Inductive pyobj : Type :=
  | PyStr (s : string)
  | PyBytes (b : list Byte.byte)
  | PyIter (els : list pyobj)
  | PyScalar (z : Z).
#[local] Set Elimination Schemes.

(** [isinstance(el, Iterable) and not isinstance(el, (str, bytes))] *)
Definition is_nested (el : pyobj) : bool :=
  match el with
  | PyIter _ => true
  | _ => false
  end.

(** what [flatten] yields for one element [el] of its argument *)
Fixpoint flatten_el (el : pyobj) : list pyobj :=
  match el with
  | PyIter els =>
      (fix flatten_els (l : list pyobj) : list pyobj :=
         match l with
         | [] => []
         | el' :: l' => flatten_el el' ++ flatten_els l'
         end) els
  | _ => [el]
  end.

(** [flatten(l)]: the values the generator yields, in order *)
Definition flatten (l : list pyobj) : list pyobj := l ≫= flatten_el.

(** the number of values in [el] that are not nested further *)
Fixpoint leaves (el : pyobj) : nat :=
  match el with
  | PyIter els => foldr (λ el' n, (leaves el' + n)%nat) 0%nat els
  | _ => 1
  end.

(** [[1, [2, ["ab", []]], (3,)]] *)
Definition ex_nested : list pyobj :=
  [ PyScalar 1; PyIter [PyScalar 2; PyIter [PyStr "ab"; PyIter []]];
    PyIter [PyScalar 3] ].

(** a table of events without a label column *)
Definition ex_unlabelled_events : DataFrame :=
  Pd.mk_DataFrame ["filename"; "onset"; "offset"]
    [ [CStr "a.wav"; CNum 1%float; CNum 2%float] ].

(** * Properties *)

(** ** The error monad *)

Lemma bind_Ok {A B} (f : A → result B) (m : result A) (b : B) :
  m ≫= f = Ok b → ∃ a, m = Ok a ∧ f a = Ok b.
Proof. destruct m as [a|e]; simpl; [eauto | discriminate]. Qed.

(** ** numpy *)

Lemma stretch_id {A} (n : nat) (l : list A) : length l = n → Np.stretch n l = l.
Proof.
  intros <-. destruct l as [|x [|y l]]; reflexivity.
Qed.

Lemma broadcast_dim_same (d : nat) : Np.broadcast_dim d d = Ok d.
Proof. unfold Np.broadcast_dim. rewrite decide_True; done. Qed.

Lemma broadcast_to_id {A} (a : Np.ndarray2 A) :
  Np.wf a → Np.broadcast_to (Np.n_rows a) (Np.n_cols a) a = Np.arr_rows a.
Proof.
  intros Hwf. unfold Np.broadcast_to.
  rewrite stretch_id by (rewrite length_fmap; reflexivity).
  unfold Np.wf in Hwf. induction Hwf as [|r rs Hr _ IH]; [reflexivity|].
  cbn [fmap list_fmap]. rewrite stretch_id by exact Hr. f_equal. exact IH.
Qed.

Lemma elementwise_same_shape {A B C} (op : A → B → C)
    (a : Np.ndarray2 A) (b : Np.ndarray2 B) :
  Np.wf a → Np.wf b → Np.same_shape a b →
  Np.elementwise op a b =
    Ok (Np.mk_ndarray2 (Np.n_cols a)
          (zip_with (zip_with op) (Np.arr_rows a) (Np.arr_rows b))).
Proof.
  intros Ha Hb [Hr Hc]. unfold Np.elementwise.
  rewrite <- Hr, <- Hc, !broadcast_dim_same. cbn.
  rewrite broadcast_to_id by exact Ha.
  rewrite Hr, Hc, broadcast_to_id by exact Hb. reflexivity.
Qed.

Lemma sum_axis0_fold (rows : list (list bool)) (acc : list Z) (C c : nat) (x : Z) :
  Forall (λ r, length r = C) rows → length acc = C → acc !! c = Some x →
  fold_left (λ acc (row : list bool), zip_with Z.add acc (Z.b2z <$> row)) rows acc !! c
  = Some (x + Z.of_nat (length (filter (λ r : list bool, r !!! c = true) rows))).
Proof.
  intros Hrows. revert acc x. induction Hrows as [|r rs Hr _ IH]; intros acc x Hacc Hx.
  - cbn. rewrite Z.add_0_r. exact Hx.
  - cbn [fold_left]. 
    assert (Hc : (c < C)%nat) by (rewrite <- Hacc; eapply lookup_lt_Some; eauto).
    destruct (lookup_lt_is_Some_2 r c) as [b Hb]; [lia|].
    rewrite (IH _ (x + Z.b2z b)).
    + f_equal. rewrite filter_cons. rewrite (list_lookup_total_correct _ _ _ Hb).
      destruct b; cbn.
      * rewrite decide_True by done. cbn [length]. lia.
      * rewrite decide_False by done. lia.
    + rewrite length_zip_with, length_fmap. lia.
    + rewrite lookup_zip_with, Hx. cbn. rewrite list_lookup_fmap, Hb. reflexivity.
Qed.

Lemma sum_axis0_length (rows : list (list bool)) (acc : list Z) (C : nat) :
  Forall (λ r, length r = C) rows → length acc = C →
  length (fold_left (λ acc (row : list bool), zip_with Z.add acc (Z.b2z <$> row)) rows acc) = C.
Proof.
  intros Hrows. revert acc. induction Hrows as [|r rs Hr _ IH]; intros acc Hacc; [exact Hacc|].
  cbn [fold_left]. apply IH. rewrite length_zip_with, length_fmap. lia.
Qed.

Lemma mask_count (op : Z → Z → Z) (k : Z) (C c : nat) (A B : list (list Z)) :
  (c < C)%nat →
  Forall (λ r, length r = C) A → Forall (λ r, length r = C) B →
  length (filter (λ r : list bool, r !!! c = true)
            ((λ row : list Z, (λ x, bool_decide (x = k)) <$> row)
               <$> zip_with (zip_with op) A B))
  = length (filter (λ ab : list Z * list Z, op (ab.1 !!! c) (ab.2 !!! c) = k)
                   (zip A B)).
Proof.
  intros Hc HA. revert B. induction HA as [|a A Ha _ IH]; intros B HB; [reflexivity|].
  destruct HB as [|b B Hb HB]; [reflexivity|].
  cbn [zip_with fmap list_fmap]. rewrite !filter_cons. cbn [fst snd].
  destruct (lookup_lt_is_Some_2 a c) as [x Hx]; [lia|].
  destruct (lookup_lt_is_Some_2 b c) as [y Hy]; [lia|].
  rewrite (list_lookup_total_correct _ _ _ Hx), (list_lookup_total_correct _ _ _ Hy).
  assert (Hm : ((λ x0, bool_decide (x0 = k)) <$> zip_with op a b) !!! c = bool_decide (op x y = k)).
  { apply list_lookup_total_correct. rewrite list_lookup_fmap, lookup_zip_with, Hx. cbn.
    rewrite Hy. reflexivity. }
  rewrite Hm. specialize (IH B HB).
  destruct (decide (op x y = k)) as [Heq|Hne].
  - rewrite bool_decide_eq_true_2 by exact Heq. rewrite decide_True by done.
    cbn [length]. f_equal. exact IH.
  - rewrite bool_decide_eq_false_2 by exact Hne. rewrite decide_False by done. exact IH.
Qed.

Lemma filter_zip_swap {X Y} (P : X * Y → Prop) `{!∀ p, Decision (P p)}
    (Q : Y * X → Prop) `{!∀ p, Decision (Q p)} (A : list X) (B : list Y) :
  (∀ x y, P (x, y) ↔ Q (y, x)) →
  length (filter P (zip A B)) = length (filter Q (zip B A)).
Proof.
  intros HPQ. revert B. induction A as [|a A IH]; intros [|b B]; try reflexivity.
  cbn [zip zip_with]. rewrite !filter_cons.
  destruct (decide (P (a, b))) as [Hp|Hp].
  - rewrite decide_True by (apply HPQ; exact Hp). cbn [length]. f_equal. apply IH.
  - rewrite decide_False by (rewrite <- HPQ; exact Hp). apply IH.
Qed.

Lemma sum_axis0_mask (op : Z → Z → Z) (k : Z) (n c : nat) (A B : list (list Z)) :
  (c < n)%nat →
  Forall (λ r, length r = n) A → Forall (λ r, length r = n) B →
  Np.sum_axis0 (Np.eq_scalar (Np.mk_ndarray2 n (zip_with (zip_with op) A B)) k) !! c
  = Some (Z.of_nat (length
        (filter (λ ab : list Z * list Z, op (ab.1 !!! c) (ab.2 !!! c) = k) (zip A B)))).
Proof.
  intros Hc HA HB. unfold Np.sum_axis0, Np.eq_scalar. cbn [Np.n_cols Np.arr_rows].
  rewrite (sum_axis0_fold _ _ n c 0).
  - rewrite Z.add_0_l. do 2 f_equal. apply (mask_count op k n c A B Hc HA HB).
  - apply Forall_fmap. apply Forall_forall. intros r Hr. cbn. rewrite length_fmap.
    apply list_elem_of_lookup in Hr as [i Hi].
    apply lookup_zip_with_Some in Hi as (a & b & -> & Ha & Hb).
    rewrite length_zip_with.
    rewrite (proj1 (Forall_lookup _ _) HA _ _ Ha), (proj1 (Forall_lookup _ _) HB _ _ Hb). lia.
  - apply length_replicate.
  - apply lookup_replicate_2. exact Hc.
Qed.

Lemma sum_axis0_mask_length (op : Z → Z → Z) (k : Z) (n : nat) (A B : list (list Z)) :
  Forall (λ r, length r = n) A → Forall (λ r, length r = n) B →
  length (Np.sum_axis0 (Np.eq_scalar (Np.mk_ndarray2 n (zip_with (zip_with op) A B)) k)) = n.
Proof.
  intros HA HB. unfold Np.sum_axis0, Np.eq_scalar. cbn [Np.n_cols Np.arr_rows].
  apply sum_axis0_length; [|apply length_replicate].
  apply Forall_fmap. apply Forall_forall. intros r Hr. cbn. rewrite length_fmap.
  apply list_elem_of_lookup in Hr as [i Hi].
  apply lookup_zip_with_Some in Hi as (a & b & -> & Ha & Hb).
  rewrite length_zip_with.
  rewrite (proj1 (Forall_lookup _ _) HA _ _ Ha), (proj1 (Forall_lookup _ _) HB _ _ Hb). lia.
Qed.

Lemma intermediate_at_measures_same_shape (ref est : Np.ndarray2 Z) :
  Np.wf ref → Np.wf est → Np.same_shape ref est →
  intermediate_at_measures ref est =
    let n := Np.n_cols ref in
    let R := Np.arr_rows ref in
    let E := Np.arr_rows est in
    let s := Np.mk_ndarray2 n (zip_with (zip_with Z.add) E R) in
    Ok (Np.sum_axis0 (Np.eq_scalar s 2),
        Np.sum_axis0 (Np.eq_scalar (Np.mk_ndarray2 n (zip_with (zip_with Z.sub) E R)) 1),
        Np.sum_axis0 (Np.eq_scalar (Np.mk_ndarray2 n (zip_with (zip_with Z.sub) R E)) 1),
        Np.sum_axis0 (Np.eq_scalar s 0)).
Proof.
  intros Hr He Hs. unfold intermediate_at_measures, Np.add, Np.sub.
  assert (Hs' : Np.same_shape est ref) by (destruct Hs; split; congruence).
  rewrite !(elementwise_same_shape _ est ref He Hr Hs').
  rewrite (elementwise_same_shape _ ref est Hr He Hs).
  destruct Hs as [_ ->]. reflexivity.
Qed.

Lemma intermediate_at_measures_spec (ref est : Np.ndarray2 Z) :
  Np.wf ref → Np.wf est → Np.same_shape ref est →
  ∃ tp fp fn tn,
    intermediate_at_measures ref est = Ok (tp, fp, fn, tn) ∧
    (length tp = Np.n_cols ref ∧ length fp = Np.n_cols ref ∧
     length fn = Np.n_cols ref ∧ length tn = Np.n_cols ref) ∧
    ∀ c, (c < Np.n_cols ref)%nat →
      tp !! c = Some (count_rows (λ r e, bool_decide (r + e = 2)) ref est c) ∧
      fp !! c = Some (count_rows (λ r e, bool_decide (e - r = 1)) ref est c) ∧
      fn !! c = Some (count_rows (λ r e, bool_decide (r - e = 1)) ref est c) ∧
      tn !! c = Some (count_rows (λ r e, bool_decide (r + e = 0)) ref est c).
Proof.
  intros Hr He Hs.
  rewrite (intermediate_at_measures_same_shape ref est Hr He Hs). cbv zeta.
  assert (HE : Forall (λ r, length r = Np.n_cols ref) (Np.arr_rows est)).
  { destruct Hs as [_ ->]. exact He. }
  do 4 eexists. split; [reflexivity|]. split.
  - rewrite !sum_axis0_mask_length by assumption. done.
  - intros c Hc. rewrite !sum_axis0_mask by assumption. unfold count_rows.
    repeat split; do 2 f_equal.
    + apply filter_zip_swap. intros x y. cbn. rewrite bool_decide_eq_true. lia.
    + apply filter_zip_swap. intros x y. cbn. rewrite bool_decide_eq_true. lia.
    + f_equal. apply list_filter_iff. intros [x y]. cbn. rewrite bool_decide_eq_true. lia.
    + apply filter_zip_swap. intros x y. cbn. rewrite bool_decide_eq_true. lia.
Qed.

Lemma multi_hot_entry (a : Np.ndarray2 Z) (r : list Z) (c : nat) :
  Np.multi_hot a → r ∈ Np.arr_rows a → r !!! c = 0 ∨ r !!! c = 1.
Proof.
  intros Ha Hr. unfold Np.multi_hot in Ha.
  pose proof (proj1 (Forall_forall _ _) Ha r Hr) as Hrow.
  destruct (r !! c) as [x|] eqn:Hx.
  - rewrite (list_lookup_total_correct _ _ _ Hx).
    exact (proj1 (Forall_lookup _ _) Hrow _ _ Hx).
  - rewrite list_lookup_total_alt, Hx. cbn. auto.
Qed.

Lemma four_way_count (c : nat) (l : list (list Z * list Z)) :
  Forall (λ re, (re.1 !!! c = 0 ∨ re.1 !!! c = 1) ∧ (re.2 !!! c = 0 ∨ re.2 !!! c = 1)) l →
  Z.of_nat (length (filter (λ re, bool_decide (re.1 !!! c + re.2 !!! c = 2) = true) l))
  + Z.of_nat (length (filter (λ re, bool_decide (re.2 !!! c - re.1 !!! c = 1) = true) l))
  + Z.of_nat (length (filter (λ re, bool_decide (re.1 !!! c - re.2 !!! c = 1) = true) l))
  + Z.of_nat (length (filter (λ re, bool_decide (re.1 !!! c + re.2 !!! c = 0) = true) l))
  = Z.of_nat (length l).
Proof.
  induction 1 as [|[r e] l [Hr He] _ IH]; [reflexivity|].
  rewrite !filter_cons. cbn [fst snd] in *. cbn [length].
  destruct Hr as [-> | ->], He as [-> | ->];
    repeat match goal with
      | |- context [decide (bool_decide ?P = true)] =>
          let H := fresh in
          destruct (decide (bool_decide P = true))
            as [H%bool_decide_eq_true | H%not_true_iff_false%bool_decide_eq_false]
      end; cbn [length]; lia.
Qed.

(** C1. For two multi-hot arrays of one shape, [intermediate_at_measures]
    returns, for every class [c]: tp, the number of rows where
    [ref + est == 2]; fp, the number of rows where [est - ref == 1]; fn, the
    number of rows where [ref - est == 1]; tn, the number of rows where
    [ref + est == 0]. Each of the four vectors has one entry per class. *)
Theorem intermediate_at_measures_counts (ref est : Np.ndarray2 Z) :
  Np.wf ref → Np.wf est → Np.same_shape ref est →
  Np.multi_hot ref → Np.multi_hot est →
  ∃ tp fp fn tn,
    intermediate_at_measures ref est = Ok (tp, fp, fn, tn) ∧
    (length tp = Np.n_cols ref ∧ length fp = Np.n_cols ref ∧
     length fn = Np.n_cols ref ∧ length tn = Np.n_cols ref) ∧
    ∀ c, (c < Np.n_cols ref)%nat →
      tp !! c = Some (count_rows (λ r e, bool_decide (r + e = 2)) ref est c) ∧
      fp !! c = Some (count_rows (λ r e, bool_decide (e - r = 1)) ref est c) ∧
      fn !! c = Some (count_rows (λ r e, bool_decide (r - e = 1)) ref est c) ∧
      tn !! c = Some (count_rows (λ r e, bool_decide (r + e = 0)) ref est c).
Proof.
  intros Hr He Hs _ _. exact (intermediate_at_measures_spec ref est Hr He Hs).
Qed.

(** C8. For two multi-hot arrays of one shape, the four counts of every
    class are non-negative and add up to the number of rows: each row falls
    in exactly one of the four cases. *)
Theorem confusion_counts_partition (ref est : Np.ndarray2 Z) :
  Np.wf ref → Np.wf est → Np.same_shape ref est →
  Np.multi_hot ref → Np.multi_hot est →
  ∃ tp fp fn tn,
    intermediate_at_measures ref est = Ok (tp, fp, fn, tn) ∧
    ∀ c, (c < Np.n_cols ref)%nat →
      ∃ tp_c fp_c fn_c tn_c,
        tp !! c = Some tp_c ∧ fp !! c = Some fp_c ∧
        fn !! c = Some fn_c ∧ tn !! c = Some tn_c ∧
        0 ≤ tp_c ∧ 0 ≤ fp_c ∧ 0 ≤ fn_c ∧ 0 ≤ tn_c ∧
        tp_c + fp_c + fn_c + tn_c = Z.of_nat (Np.n_rows ref).
Proof.
  intros Hr He Hs Hmr Hme.
  destruct (intermediate_at_measures_spec ref est Hr He Hs)
    as (tp & fp & fn & tn & Heq & _ & Hc).
  exists tp, fp, fn, tn. split; [exact Heq|].
  intros c Hlt. destruct (Hc c Hlt) as (Htp & Hfp & Hfn & Htn).
  do 4 eexists. repeat split; try eassumption; unfold count_rows; try lia.
  rewrite four_way_count.
  - rewrite length_zip. destruct Hs as [Hs _]. unfold Np.n_rows in *. lia.
  - apply Forall_forall. intros [r e] Hin. cbn [fst snd].
    apply elem_of_zip_l in Hin as Hin1. apply elem_of_zip_r in Hin as Hin2.
    split; eauto using multi_hot_entry.
Qed.

(** The example of the specification, through C1: one class,
    ref = [1,0,1,1] and est = [1,1,0,1] give tp = 2, fp = 1, fn = 1, tn = 0. *)
Lemma intermediate_at_measures_example :
  (Np.wf ex_ref ∧ Np.wf ex_est ∧ Np.same_shape ex_ref ex_est ∧
   Np.multi_hot ex_ref ∧ Np.multi_hot ex_est) ∧
  intermediate_at_measures ex_ref ex_est = Ok ([2], [1], [1], [0]).
Proof.
  assert (Hr : Np.wf ex_ref) by (repeat constructor).
  assert (He : Np.wf ex_est) by (repeat constructor).
  assert (Hs : Np.same_shape ex_ref ex_est) by (split; reflexivity).
  assert (Hmr : Np.multi_hot ex_ref) by (repeat constructor; auto).
  assert (Hme : Np.multi_hot ex_est) by (repeat constructor; auto).
  split; [tauto|].
  destruct (intermediate_at_measures_counts ex_ref ex_est Hr He Hs Hmr Hme)
    as (tp & fp & fn & tn & -> & (Ltp & Lfp & Lfn & Ltn) & Hc).
  destruct (Hc 0%nat ltac:(cbn; lia)) as (Htp & Hfp & Hfn & Htn).
  destruct tp as [|? [|]], fp as [|? [|]], fn as [|? [|]], tn as [|? [|]];
    try discriminate.
  vm_compute in Htp, Hfp, Hfn, Htn. congruence.
Defined.

(** C8 on the same example: 2 + 1 + 1 + 0 = 4 rows. *)
Lemma confusion_counts_partition_example :
  (Np.wf ex_ref ∧ Np.wf ex_est ∧ Np.same_shape ex_ref ex_est ∧
   Np.multi_hot ex_ref ∧ Np.multi_hot ex_est) ∧
  ∃ tp fp fn tn,
    intermediate_at_measures ex_ref ex_est = Ok (tp, fp, fn, tn) ∧
    ∀ c, (c < Np.n_cols ex_ref)%nat →
      ∃ tp_c fp_c fn_c tn_c,
        tp !! c = Some tp_c ∧ fp !! c = Some fp_c ∧
        fn !! c = Some fn_c ∧ tn !! c = Some tn_c ∧
        0 ≤ tp_c ∧ 0 ≤ fp_c ∧ 0 ≤ fn_c ∧ 0 ≤ tn_c ∧
        tp_c + fp_c + fn_c + tn_c = Z.of_nat (Np.n_rows ex_ref).
Proof.
  assert (Hr : Np.wf ex_ref) by (repeat constructor).
  assert (He : Np.wf ex_est) by (repeat constructor).
  assert (Hs : Np.same_shape ex_ref ex_est) by (split; reflexivity).
  assert (Hmr : Np.multi_hot ex_ref) by (repeat constructor; auto).
  assert (Hme : Np.multi_hot ex_est) by (repeat constructor; auto).
  split; [tauto|].
  exact (confusion_counts_partition ex_ref ex_est Hr He Hs Hmr Hme).
Defined.

(** ** The F-measure *)




Lemma assign_go_length {A} (a : list A) (mask : list bool) (vals : list A) :
  length (Np.assign_go a mask vals) = length a.
Proof.
  revert mask vals. induction a as [|x a IH]; intros [|b mask] vals; try reflexivity.
  cbn [Np.assign_go]. destruct b; [destruct vals|]; cbn; f_equal; apply IH.
Qed.





(** ** Not-a-number in float64 arithmetic *)

Lemma is_nan_spec (x : float) : PrimFloat.is_nan x = true ↔ Prim2SF x = S754_nan.
Proof.
  unfold PrimFloat.is_nan. rewrite FloatAxioms.eqb_spec.
  destruct (Prim2SF x) as [s|s| |s m e]; cbn.
  - destruct s; split; discriminate.
  - destruct s; split; discriminate.
  - split; reflexivity.
  - unfold SFeqb, SFcompare. rewrite Z.compare_refl, Pos.compare_cont_refl.
    destruct s; cbn; split; discriminate.
Qed.






(** ** Per-file event lists *)

Lemma mask_rows_fmap {A} (g : A → bool) (l : list A) :
  Pd.mask_rows l (g <$> l) = filter (λ x, g x = true) l.
Proof.
  induction l as [|x l IH]; [reflexivity|].
  cbn [fmap list_fmap Pd.mask_rows]. rewrite filter_cons.
  destruct (g x); cbn.
  - rewrite decide_True by done. f_equal. exact IH.
  - rewrite decide_False by done. exact IH.
Qed.

Lemma filter_rows_eq (df : DataFrame) (i : nat) (fname : cell) :
  Pd.filter_rows df ((λ c, Pd.cell_eqb c fname) <$> (Pd.cell_at i <$> Pd.rows df))
  = Pd.mk_DataFrame (Pd.columns df)
      (filter (λ r, Pd.cell_eqb (Pd.cell_at i r) fname = true) (Pd.rows df)).
Proof.
  unfold Pd.filter_rows. rewrite <- list_fmap_compose.
  rewrite (mask_rows_fmap (λ r, Pd.cell_eqb (Pd.cell_at i r) fname)). reflexivity.
Qed.

Lemma getitem_Ok (df : DataFrame) (name : string) (i : nat) :
  Pd.col_index name (Pd.columns df) = Some i →
  Pd.getitem df name = Ok (Pd.cell_at i <$> Pd.rows df).
Proof. intros H. unfold Pd.getitem. rewrite H. reflexivity. Qed.

(** what [get_event_list_current_file] selects: the rows of the file *)
Lemma get_event_list_current_file_unfold (df : DataFrame) (fname : cell) (i : nat) :
  Pd.col_index "filename" (Pd.columns df) = Some i →
  get_event_list_current_file df fname =
    let matching := filter (λ r, Pd.cell_eqb (Pd.cell_at i r) fname = true) (Pd.rows df) in
    match matching with
    | [r] =>
        event_labels ← Pd.getitem (Pd.mk_DataFrame (Pd.columns df) [r]) "event_label";
        first ← Pd.iloc0 event_labels;
        missing ← Pd.isna first;
        if (missing : bool) then Ok [ {[ "filename" := fname ]} ]
        else Ok [Pd.to_record (Pd.columns df) r]
    | _ => Ok (Pd.to_record (Pd.columns df) <$> matching)
    end.
Proof.
  intros Hi. unfold get_event_list_current_file.
  rewrite (getitem_Ok df "filename" i Hi). cbn [mbind result_bind].
  rewrite filter_rows_eq. cbv zeta.
  destruct (filter _ (Pd.rows df)) as [|r [|r' l]]; reflexivity.
Qed.

(** C4, as amended. Let the table have a filename and an event_label
    column. When exactly one row has the filename and its label is missing,
    [get_event_list_current_file] returns a list of ONE record, which holds
    the filename only (neither the row's record nor an empty list). In
    every other case (no row, several rows, or one row with a label) it
    returns one record per matching row, in order. *)
Theorem get_event_list_current_file_cases (df : DataFrame) (fname : cell) (i j : nat) :
  Pd.col_index "filename" (Pd.columns df) = Some i →
  Pd.col_index "event_label" (Pd.columns df) = Some j →
  let matching :=
    filter (λ r, Pd.cell_eqb (Pd.cell_at i r) fname = true) (Pd.rows df) in
  (∀ r, matching = [r] → Pd.isna (Pd.cell_at j r) = Ok true →
        get_event_list_current_file df fname = Ok [ {[ "filename" := fname ]} ]) ∧
  ((∀ r, matching = [r] → Pd.isna (Pd.cell_at j r) = Ok false) →
        get_event_list_current_file df fname
        = Ok (Pd.to_record (Pd.columns df) <$> matching)).
Proof.
  intros Hi Hj matching.
  rewrite (get_event_list_current_file_unfold df fname i Hi). fold matching. cbv zeta.
  split.
  - intros r -> Hna. rewrite (getitem_Ok (Pd.mk_DataFrame (Pd.columns df) [r]) "event_label" j Hj). cbn. rewrite Hna. reflexivity.
  - intros H. destruct matching as [|r [|r' l]]; try reflexivity.
    rewrite (getitem_Ok (Pd.mk_DataFrame (Pd.columns df) [r]) "event_label" j Hj). cbn. rewrite (H r eq_refl). reflexivity.
Qed.

(** C4 on a table: a.wav has one row without label, b.wav one row with
    a label. *)
Lemma get_event_list_current_file_cases_example :
  get_event_list_current_file ex_single_missing (CStr "a.wav")
    = Ok [ {[ "filename" := CStr "a.wav" ]} ] ∧
  get_event_list_current_file ex_single_missing (CStr "b.wav")
    = Ok [ Pd.to_record (Pd.columns ex_single_missing)
             [CStr "b.wav"; CNum 1%float; CNum 2%float; CStr "dog"] ].
Proof.
  split.
  - apply (proj1 (get_event_list_current_file_cases ex_single_missing
                    (CStr "a.wav") 0 3 eq_refl eq_refl)
                 [CStr "a.wav"; Pd.NaN; Pd.NaN; Pd.NaN]); reflexivity.
  - apply (proj2 (get_event_list_current_file_cases ex_single_missing
                    (CStr "b.wav") 0 3 eq_refl eq_refl)).
    intros r [= <-]. reflexivity.
Defined.

(** C4 as first stated fails: a.wav has exactly one row in the table, the
    label of that row is missing, and the list returned is not empty. *)
Lemma get_event_list_single_missing_not_empty :
  filter (λ r, Pd.cell_eqb (Pd.cell_at 0 r) (CStr "a.wav") = true)
         (Pd.rows ex_single_missing)
    = [[CStr "a.wav"; Pd.NaN; Pd.NaN; Pd.NaN]] ∧
  Pd.isna (Pd.cell_at 3 [CStr "a.wav"; Pd.NaN; Pd.NaN; Pd.NaN]) = Ok true ∧
  get_event_list_current_file ex_single_missing (CStr "a.wav")
    = Ok [ {[ "filename" := CStr "a.wav" ]} ] ∧
  get_event_list_current_file ex_single_missing (CStr "a.wav") ≠ Ok [].
Proof.
  split; [reflexivity|]. split; [reflexivity|]. split; [reflexivity|]. discriminate.
Qed.

Lemma col_index_lookup (name : string) (cols : list string) (i : nat) :
  Pd.col_index name cols = Some i → cols !! i = Some name.
Proof.
  revert i. induction cols as [|c cols IH]; intros i; cbn; [discriminate|].
  destruct (decide (c = name)) as [->|Hne].
  - intros [= <-]. reflexivity.
  - destruct (Pd.col_index name cols) as [k|]; cbn; [|discriminate].
    intros [= <-]. cbn. apply IH. reflexivity.
Qed.

Lemma to_record_lookup (cols : list string) (r : list cell) (name : string) (i : nat) :
  NoDup cols → length r = length cols → Pd.col_index name cols = Some i →
  Pd.to_record cols r !! name = Some (Pd.cell_at i r).
Proof.
  intros Hnd Hlen Hi. apply col_index_lookup in Hi.
  destruct (lookup_lt_is_Some_2 r i) as [x Hx].
  { rewrite Hlen. eapply lookup_lt_Some, Hi. }
  unfold Pd.cell_at. rewrite Hx. cbn. unfold Pd.to_record.
  assert (Hfst : (zip cols r).*1 = cols) by (apply fst_zip; lia).
  rewrite (list_to_map_proper (reverse (zip cols r)) (zip cols r)).
  - apply elem_of_list_to_map_1; [rewrite Hfst; exact Hnd|].
    apply list_elem_of_lookup. exists i. rewrite lookup_zip_with, Hi. cbn. rewrite Hx. reflexivity.
  - rewrite fmap_reverse, Hfst, reverse_Permutation. exact Hnd.
  - apply reverse_Permutation.
Qed.

Lemma float_eqb_refl_r (x y : float) :
  PrimFloat.eqb x y = true → PrimFloat.eqb y y = true.
Proof.
  intros H. destruct (PrimFloat.eqb y y) eqn:Hy; [reflexivity|].
  assert (Hn : PrimFloat.is_nan y = true) by (unfold PrimFloat.is_nan; rewrite Hy; reflexivity).
  apply is_nan_spec in Hn. rewrite FloatAxioms.eqb_spec, Hn in H.
  destruct (Prim2SF x) as [[]|[]| |[] ? ?]; discriminate.
Qed.

Lemma cell_eqb_refl_r (c d : cell) : Pd.cell_eqb c d = true → Pd.cell_eqb d d = true.
Proof.
  destruct c, d; cbn; try discriminate.
  - intros _. apply bool_decide_eq_true. reflexivity.
  - apply float_eqb_refl_r.
Qed.

Lemma get_event_list_filename (df : DataFrame) (fname : cell) (i : nat)
    (l : list event_dict) :
  Pd.wf df → Pd.col_index "filename" (Pd.columns df) = Some i →
  get_event_list_current_file df fname = Ok l →
  ∀ d, d ∈ l → ∃ v, d !! "filename" = Some v ∧ Pd.cell_eqb v fname = true.
Proof.
  intros [Hnd Hlen] Hi. rewrite (get_event_list_current_file_unfold df fname i Hi). cbv zeta.
  set (matching := filter _ (Pd.rows df)).
  assert (Hrec : ∀ r, r ∈ matching →
            ∃ v, Pd.to_record (Pd.columns df) r !! "filename" = Some v
                 ∧ Pd.cell_eqb v fname = true).
  { intros r [Hr Hin]%list_elem_of_filter. exists (Pd.cell_at i r). split; [|exact Hr].
    apply to_record_lookup; [exact Hnd | | exact Hi].
    exact (proj1 (Forall_forall _ _) Hlen r Hin). }
  assert (Hgen : ∀ l, Ok (Pd.to_record (Pd.columns df) <$> matching) = Ok l →
            ∀ d, d ∈ l → ∃ v, d !! "filename" = Some v ∧ Pd.cell_eqb v fname = true).
  { intros l' [= <-] d [r [-> Hr]]%list_elem_of_fmap. apply Hrec, Hr. }
  destruct matching as [|r [|r' rest]] eqn:Hm; try (apply Hgen).
  intros H d Hd.
  apply bind_Ok in H as (labels & _ & H). apply bind_Ok in H as (first & _ & H).
  apply bind_Ok in H as (missing & _ & H). destruct missing.
  - injection H as <-. apply list_elem_of_singleton in Hd as ->.
    exists fname. split; [apply lookup_singleton_eq|].
    destruct (Hrec r) as (v & _ & Hv); [left|]. eapply cell_eqb_refl_r, Hv.
  - injection H as <-. apply list_elem_of_singleton in Hd as ->. apply Hrec. left.
Qed.

Lemma evaluate_files_recorder (reference estimated : DataFrame) (files : list cell)
    (m0 trace : Recorder) :
  evaluate_files reference estimated m0 files = Ok trace →
  ∃ pairs, trace = m0 ++ pairs ∧
    Forall2 (λ fname p, get_event_list_current_file reference fname = Ok p.1
                        ∧ get_event_list_current_file estimated fname = Ok p.2)
            files pairs.
Proof.
  unfold evaluate_files. revert m0.
  induction files as [|f files IH]; intros m0; cbn [foldM_result].
  - intros [= <-]. exists []. rewrite app_nil_r. split; [reflexivity | constructor].
  - intros H. apply bind_Ok in H as (m1 & H1 & H).
    apply bind_Ok in H1 as (r & Hr & H1). apply bind_Ok in H1 as (e & He & H1).
    cbn in H1. injection H1 as <-.
    destruct (IH _ H) as (pairs & -> & HF).
    exists ((r, e) :: pairs). split; [rewrite <- app_assoc; reflexivity|].
    constructor; [split; assumption | exact HF].
Qed.

Lemma evaluate_files_fold {M} `{!SedMetrics M} (reference estimated : DataFrame)
    (files : list cell) (pairs : list (list event_dict * list event_dict)) (m : M) :
  Forall2 (λ fname p, get_event_list_current_file reference fname = Ok p.1
                      ∧ get_event_list_current_file estimated fname = Ok p.2)
          files pairs →
  evaluate_files reference estimated m files
  = foldM_result (λ m p, evaluate m p.1 p.2) m pairs.
Proof.
  intros HF. revert m. unfold evaluate_files.
  induction HF as [|f p files pairs [Hr He] _ IH]; intros m; [reflexivity|].
  cbn [foldM_result]. rewrite Hr, He. cbn [mbind result_bind].
  destruct (evaluate m p.1 p.2) as [m'|e]; cbn; [apply IH | reflexivity].
Qed.

Lemma unique_subset_go (l seen : list cell) (c : cell) :
  c ∈ fold_left (λ seen c, if existsb (Pd.key_eqb c) seen then seen else seen ++ [c]) l seen →
  c ∈ seen ∨ c ∈ l.
Proof.
  revert seen. induction l as [|x l IH]; intros seen; cbn [fold_left]; [auto|].
  intros H. apply IH in H as [H|H]; [|right; right; exact H].
  destruct (existsb (Pd.key_eqb x) seen); [left; exact H|].
  apply elem_of_app in H as [H|H]; [left; exact H|].
  apply list_elem_of_singleton in H as ->. right. left.
Qed.

Lemma unique_subset (l : list cell) (c : cell) : c ∈ Pd.unique l → c ∈ l.
Proof.
  intros H. apply unique_subset_go in H as [H|H]; [inversion H | exact H].
Qed.

Lemma foldM_recorder (l acc : Recorder) :
  foldM_result (λ (m : Recorder) p, evaluate m p.1 p.2) acc l = Ok (acc ++ l).
Proof.
  revert acc. induction l as [|[r e] l IH]; intros acc; cbn [foldM_result].
  - rewrite app_nil_r. reflexivity.
  - cbn. rewrite IH, <- app_assoc. reflexivity.
Qed.

Section FilesSubmitted.

Context (list_set : list cell → list cell).
Context {EM SM : Type} `{!SedMetrics EM} `{!SedMetrics SM}.
Context (EventBasedMetrics : list cell → float → float → string → EM).
Context (SegmentBasedMetrics : list cell → float → SM).

(** C10. Both [event_based_evaluation_df] and
    [segment_based_evaluation_df] call [evaluate] once per distinct
    filename of the reference table, in order, with the event lists of
    that file: this is what a recording accumulator is fed, and what any
    other accumulator is folded over. Every estimated event so submitted
    carries a filename of the reference table; the rows of a file that
    only the estimated table has are never submitted. *)
Theorem evaluation_submits_reference_files
    (reference estimated : DataFrame) (t_collar percentage_of_length
     time_resolution : float) (i : nat) (trace : Recorder) :
  Pd.wf estimated →
  Pd.col_index "filename" (Pd.columns estimated) = Some i →
  event_based_evaluation_df list_set (EM := Recorder) (λ _ _ _ _, [])
    reference estimated t_collar percentage_of_length = Ok trace →
  ∃ filenames classes,
    Pd.getitem reference "filename" = Ok filenames ∧
    collect_classes list_set reference estimated = Ok classes ∧
    (* one submission per distinct reference filename, in order *)
    Forall2 (λ fname p,
               fname ∈ filenames ∧
               get_event_list_current_file reference fname = Ok p.1 ∧
               get_event_list_current_file estimated fname = Ok p.2)
            (Pd.unique filenames) trace ∧
    (* these are the calls of both functions, whatever the accumulator *)
    segment_based_evaluation_df list_set (SM := Recorder) (λ _ _, [])
      reference estimated time_resolution = Ok trace ∧
    event_based_evaluation_df list_set EventBasedMetrics
      reference estimated t_collar percentage_of_length
    = foldM_result (λ m p, evaluate m p.1 p.2)
        (EventBasedMetrics classes t_collar percentage_of_length "zero_score")
        trace ∧
    segment_based_evaluation_df list_set SegmentBasedMetrics
      reference estimated time_resolution
    = foldM_result (λ m p, evaluate m p.1 p.2)
        (SegmentBasedMetrics classes time_resolution) trace ∧
    (* every estimated event submitted belongs to a reference filename *)
    (∀ p d, p ∈ trace → d ∈ p.2 →
       ∃ v g, d !! "filename" = Some v ∧ g ∈ filenames ∧ Pd.cell_eqb v g = true) ∧
    (* so the rows of a file that only the estimated table has are never
       submitted *)
    (∀ row, row ∈ Pd.rows estimated →
       (∀ g, g ∈ filenames → Pd.cell_eqb (Pd.cell_at i row) g = false) →
       ∀ p, p ∈ trace → Pd.to_record (Pd.columns estimated) row ∉ p.2).
Proof.
  intros Hwf Hi Hrun. unfold event_based_evaluation_df in Hrun.
  apply bind_Ok in Hrun as (filenames & Hf & Hrun).
  apply bind_Ok in Hrun as (classes & Hc & Hrun).
  apply evaluate_files_recorder in Hrun as (pairs & Htr & HF).
  cbn in Htr. subst pairs.
  exists filenames, classes.
  assert (HF' : Forall2 (λ fname p,
               fname ∈ filenames ∧
               get_event_list_current_file reference fname = Ok p.1 ∧
               get_event_list_current_file estimated fname = Ok p.2)
            (Pd.unique filenames) trace).
  { apply Forall2_same_length_lookup. split; [eapply Forall2_length, HF|].
    intros k f p Hk Hp. split.
    - apply unique_subset. eapply list_elem_of_lookup_2, Hk.
    - exact (Forall2_lookup_lr _ _ _ _ _ _ HF Hk Hp). }
  assert (Hsub : ∀ p d, p ∈ trace → d ∈ p.2 →
       ∃ v g, d !! "filename" = Some v ∧ g ∈ filenames ∧ Pd.cell_eqb v g = true).
  { intros p d Hp Hd. apply list_elem_of_lookup in Hp as [k Hk].
    destruct (Forall2_lookup_r _ _ _ _ _ HF' Hk) as (f & _ & Hin & _ & He).
    destruct (get_event_list_filename estimated f i p.2 Hwf Hi He d Hd) as (v & Hv & Hm).
    exists v, f. auto. }
  split; [exact Hf|]. split; [exact Hc|]. split; [exact HF'|].
  assert (HF0 : Forall2 (λ fname p,
               get_event_list_current_file reference fname = Ok p.1 ∧
               get_event_list_current_file estimated fname = Ok p.2)
            (Pd.unique filenames) trace) by exact HF.
  split.
  { unfold segment_based_evaluation_df. rewrite Hf, Hc. cbn [mbind result_bind].
    rewrite (evaluate_files_fold reference estimated _ trace _ HF0).
    apply foldM_recorder. }
  split.
  { unfold event_based_evaluation_df. rewrite Hf, Hc. cbn [mbind result_bind].
    apply evaluate_files_fold, HF0. }
  split.
  { unfold segment_based_evaluation_df. rewrite Hf, Hc. cbn [mbind result_bind].
    apply evaluate_files_fold, HF0. }
  split; [exact Hsub|].
  intros row Hrow Hno p Hp Hin.
  destruct (Hsub p _ Hp Hin) as (v & g & Hv & Hg & Hm).
  destruct Hwf as [Hnd Hlen].
  rewrite (to_record_lookup _ row "filename" i Hnd) in Hv;
    [| exact (proj1 (Forall_forall _ _) Hlen row Hrow) | exact Hi].
  injection Hv as <-. rewrite (Hno g Hg) in Hm. discriminate.
Qed.

End FilesSubmitted.

(** C10 on two tables: c.wav occurs in the estimated table only; a.wav is
    the one file submitted, and the event of c.wav is in no submission. *)
Lemma evaluation_skips_estimated_only_file :
  ∃ trace : Recorder,
    event_based_evaluation_df list_set_first (λ _ _ _ _, [] : Recorder)
      ex_reference_events ex_estimated_events
      t_collar_default percentage_of_length_default = Ok trace ∧
    length trace = 1%nat ∧
    ∀ p, p ∈ trace →
      Pd.to_record (Pd.columns ex_estimated_events) ex_estimated_row_c ∉ p.2.
Proof.
  eexists. split; [reflexivity|]. split; [reflexivity|].
  assert (Hwf : Pd.wf ex_estimated_events).
  { split; [compute_done | repeat constructor]. }
  destruct (evaluation_submits_reference_files list_set_first
              (λ _ _ _ _, [] : Recorder) (λ _ _, [] : Recorder)
              ex_reference_events ex_estimated_events
              t_collar_default percentage_of_length_default 1%float
              0%nat _ Hwf eq_refl eq_refl)
    as (filenames & classes & Hf & _ & _ & _ & _ & _ & _ & Hskip).
  injection Hf as <-.
  apply (Hskip ex_estimated_row_c).
  - right. left.
  - intros g [-> | []%elem_of_nil]%elem_of_cons. reflexivity.
Defined.

(** ** The PSDS wrapper *)

(** the innermost scrutinee at the head of a stuck computation *)
Ltac head_scrutinee t k :=
  lazymatch t with
  | match ?x with _ => _ end => head_scrutinee x k
  | (match ?x with _ => _ end) _ => head_scrutinee x k
  | _ => k t
  end.

(** run a computation of [io] symbolically: evaluate, and split on what
    the outside world answers next *)
Ltac io_run H :=
  unfold mbind, mret, io_bind, io_ret in H;
  repeat (cbn beta iota zeta in H; cbn [fst snd app] in H;
          lazymatch type of H with
          | (_, _) = _ => fail
          | ?lhs = _ => head_scrutinee lhs ltac:(fun x => destruct x eqn:?)
          end).

(** C6. Started with an empty log, [psds_score] queries the evaluator for
    (alpha_ct, alpha_st, max_efpr) = (0,0,100), (1,0,100), (0,1,100), in
    that order: the queries made are always a prefix of these three, and
    all three when none of them raises. [PSDSEvalError] never leaves
    [psds_score]; when a query raises it, [psds_score] returns normally and
    the log ends with the two error entries. *)
Theorem psds_score_queries_and_recovery (w : PsdsWorld) (filename_roc_curves : option string) :
  let run := psds_score w filename_roc_curves [] in
  queries run.1 `prefix_of` psds_queries ∧
  ((∀ q, q ∈ psds_queries → ∃ s, psds_method w q.1.1 q.1.2 q.2 = Ok s) →
   queries run.1 = psds_queries) ∧
  (∀ msg, run.2 ≠ Raise (PSDSEvalError msg)) ∧
  (∀ msg,
     psds_method w 0 0 100 = Raise (PSDSEvalError msg) ∨
     ((∃ s, psds_method w 0 0 100 = Ok s) ∧
      psds_method w 1 0 100 = Raise (PSDSEvalError msg)) ∨
     ((∃ s, psds_method w 0 0 100 = Ok s) ∧ (∃ s, psds_method w 1 0 100 = Ok s) ∧
      psds_method w 0 1 100 = Raise (PSDSEvalError msg)) →
     run.2 = Ok tt ∧
     [LogError "psds score did not work ...."; LogErrorExn (PSDSEvalError msg)]
       `suffix_of` run.1).
Proof.
  cbv zeta. destruct (psds_score w filename_roc_curves []) as [t r] eqn:Hrun.
  cbn [fst snd].
  unfold psds_score, try_except_PSDSEvalError, psds_call, logger_info,
    logger_error, logger_error_exn, makedirs, plot_psd_roc, perform, psds_queries
    in *.
  io_run Hrun.
  all: injection Hrun as <- <-; cbn [queries omap list_omap].
  all: (split; [| split; [| split]]).
  all: try (eexists; reflexivity).
  all: try (intros m; discriminate).
  all: try (intros Hall;
            first [ reflexivity
                  | destruct (Hall (0, 0, 100)) as [? Hq];
                    [set_solver | cbn in Hq; congruence]
                  | destruct (Hall (1, 0, 100)) as [? Hq];
                    [set_solver | cbn in Hq; congruence]
                  | destruct (Hall (0, 1, 100)) as [? Hq];
                    [set_solver | cbn in Hq; congruence] ]).
  all: intros m [Hq | [[[? ?] Hq] | [[? ?] [[? ?] Hq]]]]; try congruence.
  all: injection Hq as <-; split; [reflexivity|];
       repeat first [reflexivity | apply suffix_cons_r].
Qed.

(** C6 in a world whose evaluator fails on the second query. *)
Lemma psds_score_failing_second_query :
  psds_method ex_world_failing 1 0 100 = Raise (PSDSEvalError "no operating point") ∧
  (psds_score ex_world_failing None []).2 = Ok tt ∧
  [LogError "psds score did not work ....";
   LogErrorExn (PSDSEvalError "no operating point")]
    `suffix_of` (psds_score ex_world_failing None []).1 ∧
  queries (psds_score ex_world_failing None []).1 = [(0, 0, 100); (1, 0, 100)].
Proof.
  split; [reflexivity|].
  destruct (psds_score_queries_and_recovery ex_world_failing None)
    as (_ & _ & _ & Hcaught).
  destruct (Hcaught "no operating point") as [Hret Hlog].
  { right. left. split; [eexists; reflexivity | reflexivity]. }
  split; [exact Hret|]. split; [exact Hlog | reflexivity].
Defined.
(** ** Audio tagging: the joined table and its counts *)




































(** The whole of [audio_tagging_results] on the tables of that example:
    the nan of each class is in the table and in its [avg] row, next to an
    F-measure of 0. *)
Example audio_tagging_results_nan :
  audio_tagging_results list_set_first many_hot_encoder
    (Pd.mk_DataFrame ["filename"; "onset"; "offset"; "event_label"]
       [ [CStr "a.wav"; CNum 0%float; CNum 1%float; CStr "dog"] ])
    (Pd.mk_DataFrame ["filename"; "onset"; "offset"; "event_label"]
       [ [CStr "a.wav"; CNum 0%float; CNum 1%float; CStr "cat"] ])
  = Ok (mk_ResultsTable [CStr "dog"; CStr "cat"; CStr "avg"]
          [ (0%float, PrimFloat.nan, 0%float);
            (0%float, 0%float, PrimFloat.nan);
            (0%float, PrimFloat.nan, PrimFloat.nan) ]).
Proof. vm_compute. reflexivity. Qed.


(** ** Weak-label formatting and the report assembler *)

(** C7. A table with neither an onset nor an offset column is returned by
    [format_df] as it is, whatever the encoder; so formatting it twice
    gives the same table again. *)
Theorem format_df_weak_identity (df : DataFrame) (mhe : ManyHotEncoder) :
  "onset" ∉ Pd.columns df → "offset" ∉ Pd.columns df →
  format_df df mhe = Ok df ∧
  (formatted ← format_df df mhe; format_df formatted mhe) = Ok df.
Proof.
  intros Hon Hoff.
  assert (H : format_df df mhe = Ok df).
  { unfold format_df. rewrite decide_False by tauto. reflexivity. }
  split; [exact H|]. rewrite H. exact H.
Qed.

(** C7 on a table of comma-joined labels. *)
Lemma format_df_weak_identity_example :
  format_df ex_weak_table (many_hot_encoder ex_classes) = Ok ex_weak_table ∧
  (formatted ← format_df ex_weak_table (many_hot_encoder ex_classes);
   format_df formatted (many_hot_encoder ex_classes)) = Ok ex_weak_table.
Proof.
  apply format_df_weak_identity; compute_done.
Defined.

Section Report.

Context (list_set : list cell → list cell).
Context {EM SM : Type} `{!SedMetrics EM} `{!SedMetrics SM}.
Context (EventBasedMetrics : list cell → float → float → string → EM).
Context (SegmentBasedMetrics : list cell → float → SM).
Context (new_ManyHotEncoder : list cell → ManyHotEncoder).

(** C3. With an empty table of predictions [compute_metrics] returns
    (0, 0, 0), whatever the ground truth, the metadata, the flags and the
    collaborators. *)
Theorem compute_metrics_empty_predictions
    (predictions gtruth_df : DataFrame) (meta_df : option DataFrame)
    (cal_seg cal_clip : bool) :
  Pd.empty predictions = true →
  compute_metrics list_set EventBasedMetrics SegmentBasedMetrics
    new_ManyHotEncoder predictions gtruth_df meta_df cal_seg cal_clip
  = Ok (PInt 0, PInt 0, PInt 0).
Proof.
  intros Hempty. unfold compute_metrics. rewrite Hempty. reflexivity.
Qed.

End Report.

(** C3 on a table of predictions without rows, against a ground truth with
    events. *)
Lemma compute_metrics_empty_predictions_example :
  Pd.empty ex_no_predictions = true ∧
  compute_metrics list_set_first (λ _ _ _ _, [] : Recorder) (λ _ _, [] : Recorder)
    many_hot_encoder ex_no_predictions ex_reference_events None true true
  = Ok (PInt 0, PInt 0, PInt 0).
Proof.
  split; [reflexivity|].
  apply compute_metrics_empty_predictions. reflexivity.
Defined.

(** * Further properties *)

Lemma broadcast_dim_comm (d1 d2 : nat) :
  Np.broadcast_dim d1 d2 = Np.broadcast_dim d2 d1.
Proof.
  unfold Np.broadcast_dim. repeat case_decide; simplify_eq; reflexivity.
Qed.

Lemma zip_with_rows_flip {A B C} (op : A → B → C) (X : list (list A)) (Y : list (list B)) :
  zip_with (zip_with op) X Y = zip_with (zip_with (flip op)) Y X.
Proof.
  revert Y. induction X as [|x X IH]; intros [|y Y]; try reflexivity.
  cbn. rewrite IH. f_equal. apply zip_with_flip.
Qed.

Lemma broadcast_dim_Raise (d1 d2 : nat) (e : exn) :
  Np.broadcast_dim d1 d2 = Raise e → e = ValueError ∧ incompatible d1 d2.
Proof.
  unfold Np.broadcast_dim, incompatible. repeat case_decide; intros [=]; auto.
Qed.

Lemma broadcast_dim_incompatible (d1 d2 : nat) :
  incompatible d1 d2 → Np.broadcast_dim d1 d2 = Raise ValueError.
Proof.
  intros (H1 & H2 & H3). unfold Np.broadcast_dim.
  rewrite !decide_False by assumption. reflexivity.
Qed.

Lemma elementwise_nf {A B C} (op : A → B → C) (a : Np.ndarray2 A) (b : Np.ndarray2 B) :
  Np.elementwise op a b =
    match Np.broadcast_dim (Np.n_rows a) (Np.n_rows b),
          Np.broadcast_dim (Np.n_cols a) (Np.n_cols b) with
    | Ok r, Ok c =>
        Ok (Np.mk_ndarray2 c
              (zip_with (zip_with op) (Np.broadcast_to r c a) (Np.broadcast_to r c b)))
    | _, _ => Raise ValueError
    end.
Proof.
  unfold Np.elementwise.
  destruct (Np.broadcast_dim (Np.n_rows a) (Np.n_rows b)) as [r|e] eqn:Hr; cbn.
  - destruct (Np.broadcast_dim (Np.n_cols a) (Np.n_cols b)) as [c|e] eqn:Hc; cbn;
      [reflexivity|]. apply broadcast_dim_Raise in Hc as [-> _]. reflexivity.
  - apply broadcast_dim_Raise in Hr as [-> _]. reflexivity.
Qed.

Lemma zip_with_rows_ext {A B C} (f g : A → B → C) (X : list (list A)) (Y : list (list B)) :
  (∀ x y, f x y = g x y) →
  zip_with (zip_with f) X Y = zip_with (zip_with g) X Y.
Proof.
  intros Hfg. revert Y. induction X as [|x X IH]; intros [|y Y]; try reflexivity.
  cbn. rewrite IH. f_equal. apply zip_with_ext; auto.
Qed.

(** X1. Exchanging the reference and the estimate exchanges the false
    positives and the false negatives and leaves the true positives and
    the true negatives as they are, whatever the two arrays. *)
Theorem intermediate_at_measures_swap (ref est : Np.ndarray2 Z) :
  intermediate_at_measures est ref
  = ('(tp, fp, fn, tn) ← intermediate_at_measures ref est; Ok (tp, fn, fp, tn)).
Proof.
  unfold intermediate_at_measures, Np.add, Np.sub. rewrite !elementwise_nf.
  rewrite (broadcast_dim_comm (Np.n_rows ref)), (broadcast_dim_comm (Np.n_cols ref)).
  destruct (Np.broadcast_dim (Np.n_rows est) (Np.n_rows ref)) as [r|e]; [|reflexivity].
  destruct (Np.broadcast_dim (Np.n_cols est) (Np.n_cols ref)) as [c|e]; [|reflexivity].
  cbn. rewrite (zip_with_rows_flip Z.add (Np.broadcast_to r c ref)).
  rewrite (zip_with_rows_ext (flip Z.add) Z.add) by (intros; unfold flip; lia).
  reflexivity.
Qed.

(** X2. Arrays whose numbers of classes (or of instances) differ, neither
    being 1, are refused: [intermediate_at_measures] raises [ValueError]. *)
Theorem intermediate_at_measures_shape_mismatch (ref est : Np.ndarray2 Z) :
  incompatible (Np.n_cols ref) (Np.n_cols est)
  ∨ incompatible (Np.n_rows ref) (Np.n_rows est) →
  intermediate_at_measures ref est = Raise ValueError.
Proof.
  intros H. unfold intermediate_at_measures, Np.add. rewrite elementwise_nf.
  rewrite (broadcast_dim_comm (Np.n_rows est)), (broadcast_dim_comm (Np.n_cols est)).
  destruct H as [H|H]; rewrite (broadcast_dim_incompatible _ _ H).
  - destruct (Np.broadcast_dim _ _); reflexivity.
  - reflexivity.
Qed.

Lemma intermediate_at_measures_shape_mismatch_example :
  intermediate_at_measures ex_batch_ref (Np.mk_ndarray2 3 [[1; 0; 0]; [0; 1; 0]; [1; 1; 0]])
  = Raise ValueError.
Proof.
  apply intermediate_at_measures_shape_mismatch. left. cbn. unfold incompatible. lia.
Defined.

Lemma count_rows_vstack (P : Z → Z → bool) (r1 e1 r2 e2 : Np.ndarray2 Z) (c : nat) :
  Np.n_rows r1 = Np.n_rows e1 →
  count_rows P (vstack r1 r2) (vstack e1 e2) c
  = count_rows P r1 e1 c + count_rows P r2 e2 c.
Proof.
  intros H. unfold count_rows, vstack. cbn [Np.arr_rows].
  rewrite zip_with_app by exact H. rewrite filter_app, length_app. lia.
Qed.

(** X3. Counting over two batches and adding the counts is counting over
    the two batches put together: for arrays of one width, the counts of
    the stacked arrays are the sums, class by class, of the counts of the
    two batches. *)
Theorem intermediate_at_measures_batches (ref1 est1 ref2 est2 : Np.ndarray2 Z) :
  Np.wf ref1 → Np.wf est1 → Np.wf ref2 → Np.wf est2 →
  Np.same_shape ref1 est1 → Np.same_shape ref2 est2 →
  Np.n_cols ref1 = Np.n_cols ref2 →
  ∃ tp1 fp1 fn1 tn1 tp2 fp2 fn2 tn2,
    intermediate_at_measures ref1 est1 = Ok (tp1, fp1, fn1, tn1) ∧
    intermediate_at_measures ref2 est2 = Ok (tp2, fp2, fn2, tn2) ∧
    intermediate_at_measures (vstack ref1 ref2) (vstack est1 est2)
    = Ok (zip_with Z.add tp1 tp2, zip_with Z.add fp1 fp2,
          zip_with Z.add fn1 fn2, zip_with Z.add tn1 tn2).
Proof.
  intros W1 V1 W2 V2 S1 S2 Hn.
  destruct (intermediate_at_measures_spec ref1 est1 W1 V1 S1)
    as (tp1 & fp1 & fn1 & tn1 & H1 & (L1 & L2 & L3 & L4) & C1).
  destruct (intermediate_at_measures_spec ref2 est2 W2 V2 S2)
    as (tp2 & fp2 & fn2 & tn2 & H2 & (M1 & M2 & M3 & M4) & C2).
  assert (W : Np.wf (vstack ref1 ref2)).
  { unfold Np.wf, vstack. cbn. apply Forall_app. split; [exact W1|].
    rewrite Hn. exact W2. }
  assert (V : Np.wf (vstack est1 est2)).
  { unfold Np.wf, vstack. cbn. apply Forall_app. destruct S1 as [_ S1], S2 as [_ S2].
    split; [exact V1|]. rewrite <- S1, Hn, S2. exact V2. }
  assert (S : Np.same_shape (vstack ref1 ref2) (vstack est1 est2)).
  { destruct S1 as [R1 K1], S2 as [R2 K2]. split; [|exact K1].
    unfold Np.n_rows, vstack in *. cbn. rewrite !length_app. lia. }
  destruct (intermediate_at_measures_spec _ _ W V S)
    as (tp & fp & fn & tn & H & (N1 & N2 & N3 & N4) & C).
  exists tp1, fp1, fn1, tn1, tp2, fp2, fn2, tn2.
  split; [exact H1|]. split; [exact H2|]. rewrite H.
  change (Np.n_cols (vstack ref1 ref2)) with (Np.n_cols ref1) in *.
  set (n := Np.n_cols ref1) in *.
  assert (Hall : ∀ c, (c < n)%nat →
            tp !! c = zip_with Z.add tp1 tp2 !! c ∧ fp !! c = zip_with Z.add fp1 fp2 !! c ∧
            fn !! c = zip_with Z.add fn1 fn2 !! c ∧ tn !! c = zip_with Z.add tn1 tn2 !! c).
  { intros c Hc. destruct (C c Hc) as (A1 & A2 & A3 & A4).
    destruct (C1 c Hc) as (B1 & B2 & B3 & B4).
    destruct (C2 c) as (D1 & D2 & D3 & D4); [lia|].
    rewrite !lookup_zip_with, A1, A2, A3, A4, B1, B2, B3, B4. cbn.
    rewrite D1, D2, D3, D4. cbn.
    rewrite !count_rows_vstack by (apply S1). auto. }
  do 4 f_equal; (apply (list_eq_same_length _ _ n);
    [rewrite length_zip_with; lia | assumption |]);
    intros c a b Hc Ha Hb; destruct (Hall c Hc) as (E1 & E2 & E3 & E4); congruence.
Qed.

Lemma intermediate_at_measures_batches_example :
  intermediate_at_measures (vstack ex_batch_ref ex_batch_est)
                           (vstack ex_batch_est ex_batch_ref)
  = Ok ([4; 2], [0; 2], [0; 2], [2; 0]).
Proof.
  destruct (intermediate_at_measures_batches ex_batch_ref ex_batch_est
              ex_batch_est ex_batch_ref)
    as (tp1 & fp1 & fn1 & tn1 & tp2 & fp2 & fn2 & tn2 & H1 & H2 & H);
    [repeat constructor .. | reflexivity |].
  vm_compute in H1, H2. injection H1 as <- <- <- <-. injection H2 as <- <- <- <-.
  exact H.
Defined.

Lemma filter_zip_diag {A} (P : A * A → Prop) `{!∀ p, Decision (P p)} (l : list A) :
  (∀ x, ¬ P (x, x)) → filter P (zip l l) = [].
Proof.
  intros HP. induction l as [|x l IH]; [reflexivity|].
  cbn [zip zip_with]. rewrite filter_cons, decide_False by apply HP. exact IH.
Qed.

(** X4. An estimate equal to the reference has no false positive and no
    false negative in any class. *)
Theorem intermediate_at_measures_perfect (a : Np.ndarray2 Z) :
  Np.wf a →
  ∃ tp tn,
    intermediate_at_measures a a
    = Ok (tp, replicate (Np.n_cols a) 0, replicate (Np.n_cols a) 0, tn).
Proof.
  intros W.
  destruct (intermediate_at_measures_spec a a W W (conj eq_refl eq_refl))
    as (tp & fp & fn & tn & H & (_ & L2 & L3 & _) & C).
  exists tp, tn. rewrite H. do 3 f_equal; [f_equal|].
  - apply (list_eq_same_length _ _ (Np.n_cols a)); [apply length_replicate | exact L2 |].
    intros c x y Hc Hx Hy. destruct (C c Hc) as (_ & Hfp & _).
    rewrite Hfp in Hx. unfold count_rows in Hx.
    rewrite filter_zip_diag in Hx
      by (intros r; cbn; rewrite bool_decide_eq_true; lia).
    rewrite lookup_replicate_2 in Hy by exact Hc. simplify_eq/=. reflexivity.
  - apply (list_eq_same_length _ _ (Np.n_cols a)); [apply length_replicate | exact L3 |].
    intros c x y Hc Hx Hy. destruct (C c Hc) as (_ & _ & Hfn & _).
    rewrite Hfn in Hx. unfold count_rows in Hx.
    rewrite filter_zip_diag in Hx
      by (intros r; cbn; rewrite bool_decide_eq_true; lia).
    rewrite lookup_replicate_2 in Hy by exact Hc. simplify_eq/=. reflexivity.
Qed.

Lemma intermediate_at_measures_perfect_example :
  intermediate_at_measures ex_batch_ref ex_batch_ref = Ok ([2; 2], [0; 0], [0; 0], [1; 1]).
Proof.
  destruct (intermediate_at_measures_perfect ex_batch_ref) as (tp & tn & H);
    [repeat constructor|].
  rewrite H. vm_compute in H. injection H as <- <-. reflexivity.
Defined.

(** X5. Whenever [macro_f_measure] returns, its result has one entry per
    entry of [tp]; vectors [tp] and [fp] whose lengths differ, neither
    being 1, are refused with [ValueError]. *)
Theorem macro_f_measure_length (tp fp fn : list Z) :
  (∀ f, macro_f_measure tp fp fn = Ok f → length f = length tp) ∧
  (incompatible (length tp) (length fp) →
   macro_f_measure tp fp fn = Raise ValueError).
Proof.
  split.
  - intros f H. unfold macro_f_measure in H.
    repeat (apply bind_Ok in H as (? & _ & H)).
    unfold Np.assign in H. repeat case_decide; try discriminate.
    injection H as <-. rewrite assign_go_length. apply length_replicate.
  - intros H. unfold macro_f_measure, Np.vadd, Np.velementwise, Np.vscale.
    rewrite length_fmap, (broadcast_dim_incompatible _ _ H). reflexivity.
Qed.

Lemma macro_f_measure_length_example :
  macro_f_measure [1; 2] [1; 2; 3] [0; 0] = Raise ValueError.
Proof.
  apply (proj2 (macro_f_measure_length [1; 2] [1; 2; 3] [0; 0])).
  unfold incompatible. cbn. lia.
Defined.

(** X6. Whenever [get_event_list_current_file] returns, the list has as
    many records as the table has rows of that filename: the placeholder
    of a file without label stands for its one row. *)
Theorem get_event_list_current_file_length (df : DataFrame) (fname : cell)
    (i : nat) (l : list event_dict) :
  Pd.col_index "filename" (Pd.columns df) = Some i →
  get_event_list_current_file df fname = Ok l →
  length l
  = length (filter (λ r, Pd.cell_eqb (Pd.cell_at i r) fname = true) (Pd.rows df)).
Proof.
  intros Hi. rewrite (get_event_list_current_file_unfold df fname i Hi). cbv zeta.
  destruct (filter _ (Pd.rows df)) as [|r [|r' rest]].
  - intros [= <-]. reflexivity.
  - intros H. apply bind_Ok in H as (labels & _ & H).
    apply bind_Ok in H as (first & _ & H). apply bind_Ok in H as (missing & _ & H).
    destruct missing; injection H as <-; reflexivity.
  - intros [= <-]. cbn. do 2 f_equal. apply length_fmap.
Qed.

Lemma get_event_list_current_file_length_example :
  ∃ l, get_event_list_current_file ex_no_label_column (CStr "b.wav") = Ok l ∧
       length l = 2%nat.
Proof.
  eexists. split; [reflexivity|].
  rewrite (get_event_list_current_file_length ex_no_label_column (CStr "b.wav") 0 _
             eq_refl eq_refl).
  reflexivity.
Defined.

(** X7. The columns [get_event_list_current_file] needs: without a filename
    column it raises [KeyError]; the label column is read only when exactly
    one row has the filename, and then its absence raises [KeyError]; a
    filename that no row has gives the empty list, whatever the other
    columns. *)
Theorem get_event_list_current_file_columns (df : DataFrame) (fname : cell) :
  (Pd.col_index "filename" (Pd.columns df) = None →
   get_event_list_current_file df fname = Raise (KeyError "filename")) ∧
  (∀ i, Pd.col_index "filename" (Pd.columns df) = Some i →
     let matching :=
       filter (λ r, Pd.cell_eqb (Pd.cell_at i r) fname = true) (Pd.rows df) in
     (matching = [] → get_event_list_current_file df fname = Ok []) ∧
     (Pd.col_index "event_label" (Pd.columns df) = None →
        (length matching = 1%nat →
         get_event_list_current_file df fname = Raise (KeyError "event_label")) ∧
        (length matching ≠ 1%nat →
         get_event_list_current_file df fname
         = Ok (Pd.to_record (Pd.columns df) <$> matching)))).
Proof.
  split.
  - intros H. unfold get_event_list_current_file, Pd.getitem. rewrite H. reflexivity.
  - intros i Hi matching.
    rewrite (get_event_list_current_file_unfold df fname i Hi). fold matching. cbv zeta.
    split; [intros ->; reflexivity|].
    intros Hj. split; intros Hlen.
    + destruct matching as [|r [|r' rest]]; try discriminate.
      unfold Pd.getitem. cbn [Pd.columns]. rewrite Hj. reflexivity.
    + destruct matching as [|r [|r' rest]]; try reflexivity. done.
Qed.

Lemma get_event_list_current_file_columns_example :
  get_event_list_current_file ex_no_label_column (CStr "a.wav")
    = Raise (KeyError "event_label") ∧
  get_event_list_current_file ex_no_label_column (CStr "c.wav") = Ok [].
Proof.
  destruct (get_event_list_current_file_columns ex_no_label_column (CStr "a.wav"))
    as [_ Ha].
  destruct (get_event_list_current_file_columns ex_no_label_column (CStr "c.wav"))
    as [_ Hc].
  split.
  - exact (proj1 (proj2 (Ha 0%nat eq_refl) eq_refl) eq_refl).
  - exact (proj1 (Hc 0%nat eq_refl) eq_refl).
Defined.

Section EmptyReference.

Context (list_set : list cell → list cell).
Context {EM SM : Type} `{!SedMetrics EM} `{!SedMetrics SM}.
Context (EventBasedMetrics : list cell → float → float → string → EM).
Context (SegmentBasedMetrics : list cell → float → SM).

(** X8. With a reference table without rows, both evaluation functions
    return the accumulator as it was constructed: no file is evaluated,
    whatever the estimated table holds. Its label column is read all the
    same, and its labels are among the classes of the accumulator. *)
Theorem evaluation_of_empty_reference (reference estimated : DataFrame)
    (t_collar percentage_of_length time_resolution : float) (i j k : nat) :
  Pd.rows reference = [] →
  Pd.col_index "filename" (Pd.columns reference) = Some i →
  Pd.col_index "event_label" (Pd.columns reference) = Some j →
  Pd.col_index "event_label" (Pd.columns estimated) = Some k →
  let classes :=
    list_set (Pd.unique (Pd.dropna (Pd.cell_at k <$> Pd.rows estimated))) in
  event_based_evaluation_df list_set EventBasedMetrics reference estimated
    t_collar percentage_of_length
  = Ok (EventBasedMetrics classes t_collar percentage_of_length "zero_score") ∧
  segment_based_evaluation_df list_set SegmentBasedMetrics reference estimated
    time_resolution
  = Ok (SegmentBasedMetrics classes time_resolution).
Proof.
  intros Hrows Hi Hj Hk classes.
  unfold event_based_evaluation_df, segment_based_evaluation_df, collect_classes,
    Pd.getitem, Pd.getattr.
  rewrite Hi, Hj, Hk, Hrows. split; reflexivity.
Qed.

End EmptyReference.

Lemma evaluation_of_empty_reference_example :
  event_based_evaluation_df list_set_first (λ _ _ _ _, [] : Recorder)
    ex_empty_reference ex_estimated_events t_collar_default
    percentage_of_length_default = Ok [] ∧
  segment_based_evaluation_df list_set_first (λ _ _, [] : Recorder)
    ex_empty_reference ex_estimated_events 1%float = Ok [].
Proof.
  apply (evaluation_of_empty_reference list_set_first (λ _ _ _ _, [] : Recorder)
           (λ _ _, [] : Recorder) ex_empty_reference ex_estimated_events
           t_collar_default percentage_of_length_default 1%float 0 3 3);
    reflexivity.
Defined.

Lemma key_eqb_refl (c : cell) : Pd.key_eqb c c = true.
Proof.
  destruct c as [s|x|v]; cbn.
  - apply bool_decide_eq_true. reflexivity.
  - unfold PrimFloat.is_nan. destruct (PrimFloat.eqb x x); reflexivity.
  - apply bool_decide_eq_true. reflexivity.
Qed.

Lemma key_eqb_string (s : string) (c : cell) :
  Pd.key_eqb (CStr s) c = true ↔ c = CStr s.
Proof.
  destruct c as [t|x|v]; cbn; try (split; discriminate).
  rewrite bool_decide_eq_true. split; congruence.
Qed.

Lemma existsb_key_eqb (c : cell) (seen : list cell) :
  existsb (Pd.key_eqb c) seen = true ↔ ∃ u, u ∈ seen ∧ Pd.key_eqb c u = true.
Proof.
  rewrite existsb_exists. split; intros (u & Hu & H); exists u;
    (split; [apply list_elem_of_In; exact Hu | exact H]).
Qed.

(** the loop of [unique]: what has been seen stays, without repetition,
    and every value met has an equal key among the seen *)
Lemma unique_go_spec (l seen : list cell) :
  NoDup seen →
  let out := fold_left
    (λ seen c, if existsb (Pd.key_eqb c) seen then seen else seen ++ [c]) l seen in
  NoDup out ∧
  (∀ u, u ∈ seen → u ∈ out) ∧
  (∀ c, c ∈ l → ∃ u, u ∈ out ∧ Pd.key_eqb c u = true) ∧
  (∀ u, u ∈ out → u ∈ seen ∨ u ∈ l).
Proof.
  revert seen. induction l as [|x l IH]; intros seen Hnd; cbn [fold_left].
  - split; [exact Hnd|]. split; [auto|]. split; [intros c Hc; inversion Hc | auto].
  - destruct (existsb (Pd.key_eqb x) seen) eqn:Hex.
    + destruct (IH seen Hnd) as (N & Hseen & Hin & Hout).
      split; [exact N|]. split; [exact Hseen|]. split.
      * intros c [-> | Hc]%elem_of_cons; [|apply Hin, Hc].
        apply existsb_key_eqb in Hex as (u & Hu & Hk). exists u. auto.
      * intros u Hu. destruct (Hout u Hu); [left | right; right]; assumption.
    + assert (Hx : x ∉ seen).
      { intros Hx. assert (existsb (Pd.key_eqb x) seen = true) as Ht; [|congruence].
        apply existsb_key_eqb. exists x. split; [exact Hx | apply key_eqb_refl]. }
      assert (Hnd2 : NoDup (seen ++ [x])).
      { apply NoDup_app. split; [exact Hnd|]. split; [|apply NoDup_singleton].
        intros y Hy ->%list_elem_of_singleton. contradiction. }
      destruct (IH _ Hnd2) as (N & Hseen & Hin & Hout).
      split; [exact N|]. split; [intros u Hu; apply Hseen, elem_of_app; auto|]. split.
      * intros c [-> | Hc]%elem_of_cons; [|apply Hin, Hc].
        exists x. split; [|apply key_eqb_refl]. apply Hseen, elem_of_app. right. left.
      * intros u Hu. destruct (Hout u Hu) as [[H | ->%list_elem_of_singleton]%elem_of_app | H];
          [left | right; left | right; right]; auto.
Qed.

Lemma unique_NoDup (l : list cell) : NoDup (Pd.unique l).
Proof. apply (unique_go_spec l []). constructor. Qed.

Lemma unique_complete (l : list cell) (c : cell) :
  c ∈ l → ∃ u, u ∈ Pd.unique l ∧ Pd.key_eqb c u = true.
Proof. apply (unique_go_spec l []). constructor. Qed.

Lemma mask_rows_fmap_l {A B} (f : A → B) (l : list A) (mask : list bool) :
  f <$> Pd.mask_rows l mask = Pd.mask_rows (f <$> l) mask.
Proof.
  revert mask. induction l as [|x l IH]; intros [|b mask]; try reflexivity.
  cbn. destruct b; cbn; rewrite IH; reflexivity.
Qed.

(** the filename that [join_labels] gives the row of a group *)
Lemma join_labels_filename (mhe : ManyHotEncoder) (df : DataFrame) (keys : list cell)
    (k : cell) (row : list cell) :
  Pd.getitem df "filename" = Ok keys →
  join_labels mhe (Pd.filter_rows df ((λ c, Pd.key_eqb c k) <$> keys)) = Ok row →
  ∃ first lab, row = [first; lab] ∧ first ∈ keys ∧ Pd.key_eqb first k = true.
Proof.
  intros Hkeys H. unfold join_labels in H.
  apply bind_Ok in H as (filenames & Hf & H). apply bind_Ok in H as (first & H1 & H).
  apply bind_Ok in H as (labels & _ & H). apply bind_Ok in H as (lab & _ & H).
  injection H as <-. exists first, lab. split; [reflexivity|].
  unfold Pd.getitem in Hkeys, Hf. cbn [Pd.filter_rows Pd.columns Pd.rows] in Hf.
  destruct (Pd.col_index "filename" (Pd.columns df)) as [i|]; [|discriminate].
  injection Hkeys as <-. injection Hf as <-.
  rewrite mask_rows_fmap_l, mask_rows_fmap in H1.
  destruct (filter _ _) as [|c rest] eqn:Hfl; [discriminate|]. injection H1 as ->.
  assert (Hin : first ∈ filter (λ x, Pd.key_eqb x k = true) (Pd.cell_at i <$> Pd.rows df))
    by (rewrite Hfl; left).
  apply list_elem_of_filter in Hin as [Hk Hin]. auto.
Qed.

Lemma mapM_result_Forall2 {A B} (f : A → result B) (l : list A) (l' : list B) :
  mapM_result f l = Ok l' → Forall2 (λ x y, f x = Ok y) l l'.
Proof.
  revert l'. induction l as [|x l IH]; intros l'; cbn [mapM_result].
  - intros [= <-]. constructor.
  - intros H. apply bind_Ok in H as (y & Hy & H). apply bind_Ok in H as (ys & Hys & H).
    injection H as <-. constructor; [exact Hy | apply IH, Hys].
Qed.

Lemma Forall2_impl_elem {A B} (P Q : A → B → Prop) (l : list A) (k : list B) :
  Forall2 P l k → (∀ x y, x ∈ l → P x y → Q x y) → Forall2 Q l k.
Proof.
  induction 1 as [|x y l k HP _ IH]; intros HQ; constructor.
  - apply HQ; [left | exact HP].
  - apply IH. intros x' y' Hin. apply HQ. right. exact Hin.
Qed.



(** X10. A table of events with string filenames is formatted to a table
    with the columns filename and event_label that has every file of the
    input exactly once: its rows are pairs of a filename and a label cell,
    the filenames are distinct, and they are those of the input. *)
Theorem format_df_one_row_per_file (df d : DataFrame) (mhe : ManyHotEncoder)
    (keys : list cell) :
  "onset" ∈ Pd.columns df ∨ "offset" ∈ Pd.columns df →
  Pd.getitem df "filename" = Ok keys → keys ≠ [] → Forall is_string keys →
  format_df df mhe = Ok d →
  Pd.columns d = ["filename"; "event_label"] ∧
  Forall (λ row, ∃ s lab, row = [CStr s; lab]) (Pd.rows d) ∧
  NoDup (Pd.cell_at 0 <$> Pd.rows d) ∧
  ∀ s, CStr s ∈ keys ↔ ∃ lab, [CStr s; lab] ∈ Pd.rows d.
Proof.
  intros Hon Hkeys Hne Hstr H. unfold format_df in H.
  rewrite decide_True in H by exact Hon. unfold groupby_filename_apply in H.
  rewrite Hkeys in H. cbn [mbind result_bind] in H.
  assert (Hdrop : Pd.dropna keys = keys).
  { unfold Pd.dropna. clear -Hstr. induction Hstr as [|c l Hc _ IH]; [reflexivity|].
    rewrite filter_cons, IH. destruct c; try contradiction. reflexivity. }
  rewrite Hdrop in H.
  destruct (Pd.unique keys) as [|g groups] eqn:Hu.
  { destruct keys as [|c keys']; [done|].
    destruct (unique_complete (c :: keys') c) as (u & Hin & _); [left|].
    rewrite Hu in Hin. inversion Hin. }
  rewrite <- Hu in H. apply bind_Ok in H as (joined & Hj & H). injection H as <-.
  cbn [Pd.columns Pd.rows]. apply mapM_result_Forall2 in Hj.
  assert (Hrows : Forall2 (λ k row, ∃ lab, row = [k; lab]) (Pd.unique keys) joined).
  { eapply Forall2_impl_elem; [exact Hj|]. intros k row Hk Hrow.
    destruct (join_labels_filename mhe df keys k row Hkeys Hrow) as (first & lab & -> & _ & Hm).
    exists lab. apply unique_subset in Hk.
    pose proof (proj1 (Forall_forall _ _) Hstr k Hk) as Hs.
    destruct k as [s| |]; try contradiction. destruct first; try discriminate.
    cbn in Hm. apply bool_decide_eq_true in Hm as ->. reflexivity. }
  assert (Hfirst : Pd.cell_at 0 <$> joined = Pd.unique keys).
  { clear -Hrows. induction Hrows as [|k row ks rows (lab & ->) _ IH]; [reflexivity|].
    cbn. f_equal. exact IH. }
  split; [reflexivity|]. split; [|split].
  - apply Forall_forall. intros row Hrow. apply list_elem_of_lookup in Hrow as [n Hn].
    destruct (Forall2_lookup_r _ _ _ _ _ Hrows Hn) as (k & Hk & lab & ->).
    apply list_elem_of_lookup_2, unique_subset in Hk.
    pose proof (proj1 (Forall_forall _ _) Hstr k Hk) as Hs.
    destruct k as [s| |]; try contradiction. eauto.
  - rewrite Hfirst. apply unique_NoDup.
  - intros s. split.
    + intros Hs. destruct (unique_complete keys (CStr s) Hs) as (u & Hin & ->%key_eqb_string).
      apply list_elem_of_lookup in Hin as [n Hn].
      destruct (Forall2_lookup_l _ _ _ _ _ Hrows Hn) as (row & Hrow & lab & ->).
      exists lab. eapply list_elem_of_lookup_2, Hrow.
    + intros (lab & Hin). apply unique_subset. rewrite <- Hfirst.
      apply list_elem_of_fmap. exists [CStr s; lab]. split; [reflexivity | exact Hin].
Qed.

Lemma format_df_one_row_per_file_example :
  ∃ d, format_df ex_strong_table (many_hot_encoder ex_classes) = Ok d ∧
       length (Pd.rows d) = 2%nat ∧
       NoDup (Pd.cell_at 0 <$> Pd.rows d).
Proof.
  eexists. split; [reflexivity|]. split; [reflexivity|].
  apply (format_df_one_row_per_file ex_strong_table _ (many_hot_encoder ex_classes)
           (Pd.cell_at 0 <$> Pd.rows ex_strong_table)).
  - left. compute_done.
  - reflexivity.
  - discriminate.
  - repeat constructor.
  - reflexivity.
Defined.

Section Tagging.
Variable list_set : list cell → list cell.
Variable new_ManyHotEncoder : list cell → ManyHotEncoder.

(** X11. On weak tables with the columns filename and event_labels the
    tagging results are never computed once there is a prediction: the
    joined table has no column event_label_pred, and reading it raises
    AttributeError (as does the split of a label column of numbers). *)
Theorem audio_tagging_results_weak_columns (reference estimated : DataFrame) :
  Pd.columns reference = weak_file_columns →
  Pd.columns estimated = weak_file_columns →
  Pd.rows estimated ≠ [] →
  ∃ name, name ∈ ["str"; "event_label_pred"] ∧
    audio_tagging_results list_set new_ManyHotEncoder reference estimated
      = Raise (AttributeError name).
Proof.
  intros Hr He Hne. unfold audio_tagging_results.
  rewrite decide_False by (rewrite Hr; compute_done).
  unfold Pd.getattr. rewrite Hr, He. cbn [weak_file_columns Pd.col_index].
  repeat (rewrite decide_False by discriminate). rewrite decide_True by reflexivity.
  cbn [fmap option_fmap option_map mbind result_bind].
  destruct (split_labels (_ <$> Pd.rows reference)) as [rc|e] eqn:Hsr.
  2:{ unfold split_labels in Hsr. destruct (_ && _); [|discriminate].
      injection Hsr as <-. exists "str". split; [compute_done | reflexivity]. }
  cbn [mbind result_bind].
  destruct (split_labels (_ <$> Pd.rows estimated)) as [ec|e] eqn:Hse.
  2:{ unfold split_labels in Hse. destruct (_ && _); [|discriminate].
      injection Hse as <-. exists "str". split; [compute_done | reflexivity]. }
  cbn [mbind result_bind]. unfold Pd.merge_outer. rewrite Hr, He.
  cbn [weak_file_columns Pd.col_index]. rewrite decide_True by reflexivity.
  cbn [mbind result_bind]. unfold tagging_scores.
  assert (Hemp : Pd.empty estimated = false).
  { unfold Pd.empty. apply bool_decide_eq_false. rewrite He. intros [?|?]; [done | discriminate]. }
  rewrite Hemp. cbn [negb]. unfold matching_counts, matching_arrays, Pd.getattr.
  cbn. exists "event_label_pred". split; [compute_done | reflexivity].
Qed.




End Tagging.

Lemma audio_tagging_results_weak_columns_example :
  ∃ name,
    audio_tagging_results list_set_first many_hot_encoder ex_weak_table ex_weak_predictions
      = Raise (AttributeError name).
Proof.
  destruct (audio_tagging_results_weak_columns list_set_first many_hot_encoder
              ex_weak_table ex_weak_predictions)
    as (name & _ & Hraise); [reflexivity | reflexivity | discriminate |].
  exists name. exact Hraise.
Defined.


Section ReportFlags.

Context (list_set : list cell → list cell).
Context {EM SM : Type} `{!SedMetrics EM} `{!SedMetrics SM}.
Context (EventBasedMetrics : list cell → float → float → string → EM).
Context (SegmentBasedMetrics : list cell → float → SM).
Context (new_ManyHotEncoder : list cell → ManyHotEncoder).



End ReportFlags.


Ltac psds_unfold :=
  unfold psds_score, try_except_PSDSEvalError, psds_call, logger_info,
    logger_error, logger_error_exn, makedirs, plot_psd_roc, perform in *.

(** X14. An exception that leaves [psds_score] is one that the evaluator,
    the making of the directory or the plotting raised, and it is not
    reported: the log has no error entry then. *)
Theorem psds_score_raises_unlogged (w : PsdsWorld) (filename_roc_curves : option string)
    (e : exn) :
  let run := psds_score w filename_roc_curves [] in
  run.2 = Raise e →
  ((∃ alpha_ct alpha_st max_efpr, psds_method w alpha_ct alpha_st max_efpr = Raise e) ∨
   (∃ path, os_makedirs w path = Raise e) ∨
   (∃ score filename, plot_psd_roc_fn w score filename = Raise e)) ∧
  filter (λ x, is_error_entry x = true) run.1 = [].
Proof.
  cbv zeta. destruct (psds_score w filename_roc_curves []) as [t r] eqn:Hrun.
  cbn [fst snd]. intros ->. psds_unfold. io_run Hrun.
  all: simplify_eq/=.
  all: split; [| reflexivity].
  all: eauto 8.
Qed.

Lemma psds_score_raises_unlogged_example :
  (psds_score ex_world_readonly (Some "out/roc.png") []).2
    = Raise (OSError "read-only file system") ∧
  filter (λ x, is_error_entry x = true)
         (psds_score ex_world_readonly (Some "out/roc.png") []).1 = [].
Proof.
  split; [reflexivity|].
  apply (psds_score_raises_unlogged ex_world_readonly (Some "out/roc.png")
           (OSError "read-only file system")).
  reflexivity.
Defined.

(** X15. When the three queries, the making of the directory and the three
    plots succeed, [psds_score] with a file name logs the three scores and
    then plots them in the order of the queries, to the files named
    base_0_0_100ext, base_1_0_100ext and base_0_1_100ext, where
    (base, ext) splits the file name; the directory is made before the
    first plot, and only when the file name has one. *)
Theorem psds_score_plot_files (w : PsdsWorld) (filename base ext : string)
    (s1 s2 s3 : PSDS) :
  psds_method w 0 0 100 = Ok s1 →
  psds_method w 1 0 100 = Ok s2 →
  psds_method w 0 1 100 = Ok s3 →
  osp_splitext w filename = (base, ext) →
  (osp_dirname w filename ≠ "" → os_makedirs w (osp_dirname w filename) = Ok tt) →
  (∀ score path, plot_psd_roc_fn w score path = Ok tt) →
  psds_score w (Some filename) [] =
    ([ PsdsQuery 0 0 100; LogInfo "PSD-Score (0, 0, 100): " (value s1);
       PsdsQuery 1 0 100; LogInfo "PSD-Score (1, 0, 100): " (value s2);
       PsdsQuery 0 1 100; LogInfo "PSD-Score (0, 1, 100): " (value s3) ]
     ++ (if decide (osp_dirname w filename ≠ "")
         then [MakeDirs (osp_dirname w filename)] else [])
     ++ [ PlotPsdRoc (value s1) (base +:+ "_0_0_100" +:+ ext);
          PlotPsdRoc (value s2) (base +:+ "_1_0_100" +:+ ext);
          PlotPsdRoc (value s3) (base +:+ "_0_1_100" +:+ ext) ],
     Ok tt).
Proof.
  intros H1 H2 H3 Hsplit Hmk Hplot. psds_unfold.
  unfold mbind, mret, io_bind, io_ret. cbn beta iota zeta.
  rewrite H1. cbn. rewrite H2. cbn. rewrite H3. cbn. rewrite Hsplit.
  destruct (decide (osp_dirname w filename ≠ "")) as [Hd|Hd]; cbn.
  - rewrite (Hmk Hd). cbn. rewrite !Hplot. reflexivity.
  - rewrite !Hplot. reflexivity.
Qed.

Lemma psds_score_plot_files_example :
  (psds_score ex_world_ok (Some "out/roc.png") []).2 = Ok tt ∧
  drop 6 (psds_score ex_world_ok (Some "out/roc.png") []).1
    = [ MakeDirs "out";
        PlotPsdRoc 0.5%float "out/roc_0_0_100.png";
        PlotPsdRoc 0.25%float "out/roc_1_0_100.png";
        PlotPsdRoc 0.5%float "out/roc_0_1_100.png" ].
Proof.
  assert (Hrun := psds_score_plot_files ex_world_ok "out/roc.png" "out/roc" ".png"
             (mk_PSDS 0.5%float) (mk_PSDS 0.25%float) (mk_PSDS 0.5%float)
             eq_refl eq_refl eq_refl eq_refl (λ _, eq_refl) (λ _ _, eq_refl)).
  rewrite Hrun. split; reflexivity.
Defined.

(** X16. A plot is made only with a file name and only after all three
    queries were answered; without a file name no directory is made
    either. *)
Theorem psds_score_plots_last (w : PsdsWorld) (filename_roc_curves : option string)
    (x : effect) :
  let run := psds_score w filename_roc_curves [] in
  x ∈ run.1 → (∃ v p, x = PlotPsdRoc v p) ∨ (∃ p, x = MakeDirs p) →
  filename_roc_curves ≠ None ∧
  queries run.1 = psds_queries ∧
  (∀ q, q ∈ psds_queries → ∃ s, psds_method w q.1.1 q.1.2 q.2 = Ok s).
Proof.
  cbv zeta. destruct (psds_score w filename_roc_curves []) as [t r] eqn:Hrun.
  cbn [fst snd]. psds_unfold. unfold psds_queries. io_run Hrun.
  all: injection Hrun as <- <-; cbn [queries omap list_omap].
  all: intros Hin Hx.
  all: try (exfalso; repeat (apply elem_of_cons in Hin as [->|Hin];
                             [destruct Hx as [(? & ? & ?)|(? & ?)]; discriminate|]);
            by apply elem_of_nil in Hin).
  all: split; [discriminate|]; split; [reflexivity|].
  all: intros q Hq; repeat (apply elem_of_cons in Hq as [->|Hq]; [cbn; eauto|]);
       by apply elem_of_nil in Hq.
Qed.

Lemma psds_score_plots_last_example :
  PlotPsdRoc 0.25%float "out/roc_1_0_100.png"
    ∈ (psds_score ex_world_ok (Some "out/roc.png") []).1 ∧
  queries (psds_score ex_world_ok (Some "out/roc.png") []).1 = psds_queries.
Proof.
  assert (Hin : PlotPsdRoc 0.25%float "out/roc_1_0_100.png"
                  ∈ (psds_score ex_world_ok (Some "out/roc.png") []).1).
  { apply list_elem_of_lookup. exists 8%nat. reflexivity. }
  split; [exact Hin|].
  apply (psds_score_plots_last ex_world_ok (Some "out/roc.png") _ Hin).
  left. eauto.
Defined.

Lemma flatten_el_iter (els : list pyobj) : flatten_el (PyIter els) = flatten els.
Proof.
  cbn [flatten_el]. unfold flatten. induction els as [|el els IH]; [reflexivity|].
  cbn [mbind list_bind]. rewrite <- IH. reflexivity.
Qed.

Lemma pyobj_nested_ind (P : pyobj → Prop) :
  (∀ s, P (PyStr s)) → (∀ b, P (PyBytes b)) → (∀ z, P (PyScalar z)) →
  (∀ els, Forall P els → P (PyIter els)) →
  ∀ el, P el.
Proof.
  intros Hs Hb Hz Hi. fix IH 1. intros [s|b|els|z]; [apply Hs | apply Hb | | apply Hz].
  apply Hi. induction els as [|el els IHels]; constructor; [apply IH | exact IHels].
Qed.

Lemma flatten_app (l k : list pyobj) : flatten (l ++ k) = flatten l ++ flatten k.
Proof. unfold flatten. apply bind_app. Qed.

Lemma flatten_el_leaves (el : pyobj) :
  Forall (λ x, is_nested x = false) (flatten_el el).
Proof.
  induction el as [s|b|z|els IH] using pyobj_nested_ind;
    try (repeat constructor).
  rewrite flatten_el_iter. unfold flatten.
  induction IH as [|el els Hel _ IHels]; [constructor|].
  cbn [mbind list_bind]. apply Forall_app. split; [exact Hel | exact IHels].
Qed.

Lemma flatten_leaves (l : list pyobj) :
  Forall (λ x, is_nested x = false) (flatten l).
Proof.
  unfold flatten. induction l as [|el l IH]; [constructor|].
  cbn [mbind list_bind]. apply Forall_app. split; [apply flatten_el_leaves | exact IH].
Qed.

Lemma flatten_flat (l : list pyobj) :
  Forall (λ x, is_nested x = false) l → flatten l = l.
Proof.
  unfold flatten. induction 1 as [|el l Hel _ IH]; [reflexivity|].
  cbn [mbind list_bind]. rewrite IH. destruct el; try discriminate; reflexivity.
Qed.

(** X17. [flatten] yields no iterable other than strings and bytes, a list
    without such elements is yielded as it is, and so flattening twice is
    flattening once. *)
Theorem flatten_idempotent (l : list pyobj) :
  Forall (λ x, is_nested x = false) (flatten l) ∧
  (Forall (λ x, is_nested x = false) l → flatten l = l) ∧
  flatten (flatten l) = flatten l.
Proof.
  split; [apply flatten_leaves|]. split; [apply flatten_flat|].
  apply flatten_flat, flatten_leaves.
Qed.

Lemma flatten_idempotent_example :
  Forall (λ x, is_nested x = false) [PyStr "ab"; PyScalar 1] ∧
  flatten [PyStr "ab"; PyScalar 1] = [PyStr "ab"; PyScalar 1] ∧
  flatten (flatten ex_nested) = flatten ex_nested.
Proof.
  assert (Hflat : Forall (λ x, is_nested x = false) [PyStr "ab"; PyScalar 1])
    by (repeat constructor).
  split; [exact Hflat|]. split.
  - apply (proj1 (proj2 (flatten_idempotent [PyStr "ab"; PyScalar 1]))), Hflat.
  - apply (proj2 (proj2 (flatten_idempotent ex_nested))).
Defined.

Lemma flatten_el_length (el : pyobj) : length (flatten_el el) = leaves el.
Proof.
  induction el as [s|b|z|els IH] using pyobj_nested_ind; try reflexivity.
  rewrite flatten_el_iter. unfold flatten. cbn [leaves].
  induction IH as [|el els Hel _ IHels]; [reflexivity|].
  cbn [mbind list_bind foldr]. rewrite length_app, Hel, IHels. reflexivity.
Qed.

(** X18. [flatten] goes through the elements in order and removes the
    nesting only: the values of a concatenation are those of its parts,
    an element that is an iterable contributes the values of its own
    flattening, any other element itself, and the number of values
    yielded is the number of values of the argument that are not nested
    further. *)
Theorem flatten_structure (l k els : list pyobj) (el : pyobj) :
  flatten (l ++ k) = flatten l ++ flatten k ∧
  flatten (PyIter els :: l) = flatten els ++ flatten l ∧
  (is_nested el = false → flatten (el :: l) = el :: flatten l) ∧
  length (flatten l) = leaves (PyIter l).
Proof.
  split; [apply flatten_app|]. split; [|split].
  - unfold flatten at 1. cbn [mbind list_bind]. rewrite flatten_el_iter. reflexivity.
  - intros Hel. destruct el; try discriminate; reflexivity.
  - rewrite <- flatten_el_iter. apply flatten_el_length.
Qed.

Lemma flatten_structure_example :
  is_nested (PyStr "ab") = false ∧
  flatten (PyStr "ab" :: ex_nested)
    = [PyStr "ab"; PyScalar 1; PyScalar 2; PyStr "ab"; PyScalar 3].
Proof.
  split; [reflexivity|].
  rewrite (proj1 (proj2 (proj2 (flatten_structure ex_nested [] [] (PyStr "ab")))) eq_refl).
  reflexivity.
Defined.

Section Feeds.
Variable list_set : list cell → list cell.

(** X19. Asked for both, [compute_sed_eval_metrics] feeds the event based and
    the segment based accumulator the same event lists in the same order
    (seen on accumulators that record what they are fed), and the event
    based one is fed the same without the segment metrics. *)
Theorem compute_sed_eval_metrics_feeds (predictions groundtruth : DataFrame)
    (report report' : bool) (fed : Recorder) (metric_segment : option Recorder) :
  compute_sed_eval_metrics list_set (λ _ _ _ _, [] : Recorder) (λ _ _, [] : Recorder)
    predictions groundtruth report true = Ok (fed, metric_segment) →
  metric_segment = Some fed ∧
  compute_sed_eval_metrics list_set (λ _ _ _ _, [] : Recorder) (λ _ _, [] : Recorder)
    predictions groundtruth report' false = Ok (fed, None).
Proof.
  unfold compute_sed_eval_metrics, event_based_evaluation_df,
    segment_based_evaluation_df.
  destruct (Pd.getitem groundtruth "filename") as [filenames|e]; [|discriminate].
  cbn [mbind result_bind].
  destruct (collect_classes list_set groundtruth predictions) as [classes|e];
    [|discriminate].
  cbn [mbind result_bind].
  destruct (evaluate_files groundtruth predictions _ _) as [m|e]; [|discriminate].
  cbn [mbind result_bind]. intros [= <- <-]. split; reflexivity.
Qed.

End Feeds.

Lemma compute_sed_eval_metrics_feeds_example :
  ∃ fed, length fed = 1%nat ∧
    compute_sed_eval_metrics list_set_first (λ _ _ _ _, [] : Recorder)
      (λ _ _, [] : Recorder) ex_estimated_events ex_reference_events true true
      = Ok (fed, Some fed) ∧
    compute_sed_eval_metrics list_set_first (λ _ _ _ _, [] : Recorder)
      (λ _ _, [] : Recorder) ex_estimated_events ex_reference_events false false
      = Ok (fed, None).
Proof.
  eexists. split; [|split]; [| vm_compute; reflexivity |].
  2:{ eapply (compute_sed_eval_metrics_feeds list_set_first ex_estimated_events
                ex_reference_events true false).
      vm_compute. reflexivity. }
  reflexivity.
Defined.

Section MissingColumns.

Context (list_set : list cell → list cell).
Context {EM SM : Type} `{!SedMetrics EM} `{!SedMetrics SM}.
Context (EventBasedMetrics : list cell → float → float → string → EM).
Context (SegmentBasedMetrics : list cell → float → SM).

Lemma col_index_None (name : string) (cols : list string) :
  name ∉ cols → Pd.col_index name cols = None.
Proof.
  induction cols as [|c cols IH]; [reflexivity|]. intros Hin.
  cbn [Pd.col_index]. rewrite decide_False by (intros ->; apply Hin; left).
  rewrite IH by (intros ?; apply Hin; right; assumption). reflexivity.
Qed.

Lemma col_index_Some (name : string) (cols : list string) :
  name ∈ cols → ∃ i, Pd.col_index name cols = Some i.
Proof.
  induction cols as [|c cols IH]; [intros Hin; inversion Hin|]. intros Hin.
  cbn [Pd.col_index]. destruct (decide (c = name)) as [->|Hne]; [eauto|].
  apply elem_of_cons in Hin as [->|Hin]; [done|].
  destruct (IH Hin) as [i ->]. eauto.
Qed.

(** X20. Both evaluations fail before any file is evaluated when a column
    is missing: with [KeyError] when the reference has no filename
    column, and otherwise with [AttributeError] when the reference or
    the estimated table has no event_label column, whatever their rows. *)
Theorem evaluation_missing_column (reference estimated : DataFrame)
    (t_collar percentage_of_length time_resolution : float) :
  ("filename" ∉ Pd.columns reference →
   event_based_evaluation_df list_set EventBasedMetrics reference estimated
     t_collar percentage_of_length = Raise (KeyError "filename") ∧
   segment_based_evaluation_df list_set SegmentBasedMetrics reference estimated
     time_resolution = Raise (KeyError "filename")) ∧
  ("filename" ∈ Pd.columns reference →
   "event_label" ∉ Pd.columns reference ∨ "event_label" ∉ Pd.columns estimated →
   event_based_evaluation_df list_set EventBasedMetrics reference estimated
     t_collar percentage_of_length = Raise (AttributeError "event_label") ∧
   segment_based_evaluation_df list_set SegmentBasedMetrics reference estimated
     time_resolution = Raise (AttributeError "event_label")).
Proof.
  unfold event_based_evaluation_df, segment_based_evaluation_df, collect_classes,
    Pd.getitem, Pd.getattr.
  split.
  - intros Hf. rewrite (col_index_None _ _ Hf). split; reflexivity.
  - intros Hf Hl. destruct (col_index_Some _ _ Hf) as [i ->].
    cbn [mbind result_bind].
    destruct (decide ("event_label" ∈ Pd.columns reference)) as [Hr|Hr].
    + destruct Hl as [Hl|Hl]; [contradiction|].
      destruct (col_index_Some _ _ Hr) as [j ->]. cbn [mbind result_bind].
      rewrite (col_index_None _ _ Hl). split; reflexivity.
    + rewrite (col_index_None _ _ Hr). split; reflexivity.
Qed.

End MissingColumns.

Lemma evaluation_missing_column_example :
  event_based_evaluation_df list_set_first (λ _ _ _ _, [] : Recorder)
    ex_reference_events ex_unlabelled_events t_collar_default
    percentage_of_length_default = Raise (AttributeError "event_label") ∧
  segment_based_evaluation_df list_set_first (λ _ _, [] : Recorder)
    ex_reference_events ex_unlabelled_events 1%float
    = Raise (AttributeError "event_label").
Proof.
  apply (evaluation_missing_column list_set_first (λ _ _ _ _, [] : Recorder)
           (λ _ _, [] : Recorder) ex_reference_events ex_unlabelled_events).
  - compute_done.
  - right. compute_done.
Defined.

Section NoPredictions.
Variable list_set : list cell → list cell.
Variable new_ManyHotEncoder : list cell → ManyHotEncoder.




End NoPredictions.

